(** * The bootstrap of the inversion-of-control container

    A shallow embedding of [src/ioc/container.py] (class [ContainerFactory])
    and [src/ioc/registries.py] (class [Registry]), together with the
    container they drive.  The container class itself comes from the
    [diwire] package and is not among the sources: its [register] and
    [resolve] follow sections 4.1 and 4.2 of the specification. *)

From stdpp Require Import gmap strings list fin_maps.

#[local] Open Scope string_scope.
#[local] Open Scope list_scope.
#[local] Open Scope nat_scope.

#[local] Set Warnings "-clear-no-such-hyp".

(** * Data model *)

(** [Lifetime]: the three members the specification lists; the sources use
    [Lifetime.SINGLETON] only. *)
Inductive Lifetime := TRANSIENT | SINGLETON | SCOPED.

#[global] Instance Lifetime_eq_dec : EqDecision Lifetime.
Proof. solve_decision. Defined.

(** A service key is a class ([container.resolve(DjangoConfigurator)]) or a
    string name ([container.register("FastAPIFactory", ...)]). *)
Inductive ServiceKey :=
| TypeKey (cls : string)
| NameKey (name : string).

#[global] Instance ServiceKey_eq_dec : EqDecision ServiceKey.
Proof. solve_decision. Defined.

#[global] Instance ServiceKey_countable : Countable ServiceKey.
Proof.
  refine (inj_countable'
    (λ k, match k with TypeKey s => inl s | NameKey s => inr s end)
    (λ x, match x with inl s => TypeKey s | inr s => NameKey s end) _).
  by intros [].
Defined.

(** A Python object: its class and its identity.  Reference equality
    ([is]) is equality of [addr]. *)
Record Instance := { class_of : string; addr : nat }.

#[global] Instance Instance_eq_dec : EqDecision Instance.
Proof. solve_decision. Defined.

(** Exceptions.  [BootstrapPhaseError] is named by the specification; no
    statement of the sources raises it. *)
Inductive Exn :=
| UnregisteredServiceError (k : ServiceKey)
| CircularDependencyError (k : ServiceKey)
| BootstrapPhaseError (cause : Exn)
| ExternalError (what : string).

#[global] Instance Exn_eq_dec : EqDecision Exn.
Proof. solve_decision. Defined.

(** How a call ends.  [OutOfFuel] belongs to the model only: it is what the
    fuel-indexed resolver answers when its fuel is spent. *)
Inductive Outcome (A : Type) :=
| Returns (a : A)
| Raises (e : Exn)
| OutOfFuel.

Arguments Returns {A} a.
Arguments Raises {A} e.
Arguments OutOfFuel {A}.

(** A zero-argument factory, as a strategy tree: it may call the class it
    stands for ([FConstruct], a fresh object), hand back an object it
    already holds, raise, or call [resolve] on the container it is
    registered in and go on with the result.  The lambda of
    [Registry.register], [lambda: container.resolve(FastAPIFactory)], closes
    over the very container it is registered in, and is
    [FResolve (TypeKey "FastAPIFactory") FReturn]. *)
Inductive Factory :=
| FConstruct (cls : string)
| FReturn (i : Instance)
| FRaise (e : Exn)
| FResolve (k : ServiceKey) (cont : Instance → Factory).

Record Binding := { factory : Factory; lifetime : Lifetime }.

(** The collaborator methods [ContainerFactory] invokes. *)
Inductive Method :=
| DjangoConfigurator_configure (django_settings_module : string)
| LoggingConfigurator_configure
| OpenTelemetryInstrumentor_instrument_libraries
| Registry_register.

#[global] Instance Method_eq_dec : EqDecision Method.
Proof. solve_decision. Defined.

(** What an observer of the process sees, in order of occurrence.
    [EResolve d k] is a call of [container.resolve(k)] made while [d]
    factories are running ([d = 0]: the call comes from the application
    code, not from a factory).  [EImport] is an [import] statement run
    inside a function body. *)
Inductive Event :=
| EImport (module : string)
| EResolve (depth : nat) (k : ServiceKey)
| EFactory (k : ServiceKey)
| ERegister (k : ServiceKey) (lt : Lifetime)
| ECall (m : Method)
| EReturn (m : Method).

#[global] Instance Event_eq_dec : EqDecision Event.
Proof. solve_decision. Defined.

(** The container: its identity, the constructor argument of
    [container.py:16], the registry, the singleton cache and the keys under
    construction. *)
Record Container := {
  cid : nat;
  autoregister_default_lifetime : Lifetime;
  registry : gmap ServiceKey Binding;
  singletons : gmap ServiceKey Instance;
  in_progress : gset ServiceKey;
}.

(** The rest of the process: the events so far and the next free object
    identity. *)
Record World := { trace : list Event; next_addr : nat }.

Record St := { box : Container; world : World }.

Definition log (e : Event) (s : St) : St :=
  {| box := box s;
     world := {| trace := trace (world s) ++ [e];
                 next_addr := next_addr (world s) |} |}.

Definition alloc (cls : string) (s : St) : St * Instance :=
  ({| box := box s;
      world := {| trace := trace (world s);
                  next_addr := S (next_addr (world s)) |} |},
   {| class_of := cls; addr := next_addr (world s) |}).

Definition with_box (c : Container) (s : St) : St :=
  {| box := c; world := world s |}.

Definition set_registry (r : gmap ServiceKey Binding) (c : Container) : Container :=
  {| cid := cid c;
     autoregister_default_lifetime := autoregister_default_lifetime c;
     registry := r;
     singletons := singletons c;
     in_progress := in_progress c |}.

Definition set_singletons (m : gmap ServiceKey Instance) (c : Container) : Container :=
  {| cid := cid c;
     autoregister_default_lifetime := autoregister_default_lifetime c;
     registry := registry c;
     singletons := m;
     in_progress := in_progress c |}.

Definition set_in_progress (p : gset ServiceKey) (c : Container) : Container :=
  {| cid := cid c;
     autoregister_default_lifetime := autoregister_default_lifetime c;
     registry := registry c;
     singletons := singletons c;
     in_progress := p |}.

(** * The monad of the embedding: state and exceptions *)

Definition M (A : Type) : Type := St → St * Outcome A.

Definition ret {A} (a : A) : M A := λ s, (s, Returns a).

Definition raise {A} (e : Exn) : M A := λ s, (s, Raises e).

Definition bind {A B} (m : M A) (f : A → M B) : M B := λ s,
  match m s with
  | (s', Returns a) => f a s'
  | (s', Raises e) => (s', Raises e)
  | (s', OutOfFuel) => (s', OutOfFuel)
  end.

Notation "x <- m ;; k" := (bind m (λ x, k))
  (at level 100, m at next level, right associativity).
Notation "m ;;; k" := (bind m (λ _, k))
  (at level 100, right associativity).

Definition emit (e : Event) : M unit := λ s, (log e s, Returns tt).

(** * The container *)

Section Process.

(** The classes the container can build on its own: [classes !! cls] is
    the constructor call the container makes for class [cls] when it
    resolves [cls] without a binding.  The sources rely on this
    auto-registration: they build the container with
    [autoregister_default_lifetime] and resolve [DjangoConfigurator],
    [LoggingConfigurator], [OpenTelemetryInstrumentor], [Registry] and
    [FastAPIFactory], none of which is ever registered. *)
Variable classes : gmap string Factory.

(** Modelled from the spec: the constructor of diwire's [Container],
    which is not among the sources; a new container owns an empty
    registry and an empty singleton cache. *)
Definition Container_new (autoregister_default_lifetime : Lifetime)
    (w : World) : St :=
  {| box := {| cid := next_addr w;
               autoregister_default_lifetime := autoregister_default_lifetime;
               registry := ∅; singletons := ∅; in_progress := ∅ |};
     world := {| trace := trace w; next_addr := S (next_addr w) |} |}.

(** Modelled from the spec: [Container.register] of diwire, which is not
    among the sources; section 4.1: stores or replaces the binding of the
    key, and touches nothing else. *)
Definition Container_register (k : ServiceKey) (f : Factory) (lt : Lifetime)
    : M unit := λ s,
  let s1 := log (ERegister k lt) s in
  (with_box (set_registry (<[k := {| factory := f; lifetime := lt |}]>
                             (registry (box s1))) (box s1)) s1,
   Returns tt).

(** Modelled from the spec: step 1 of [Container.resolve] (section 4.2),
    the binding of the key.  The specification stops at "absent"; the
    sources resolve classes they never register, so a class without a
    binding that the container can build ([classes]) is registered on the
    spot, with the default lifetime the container was built with. *)
Definition find_binding (k : ServiceKey) (c : Container)
    : option (Binding * Container) :=
  match registry c !! k with
  | Some b => Some (b, c)
  | None =>
      match k with
      | TypeKey cls =>
          match classes !! cls with
          | Some f =>
              let b := {| factory := f;
                          lifetime := autoregister_default_lifetime c |} in
              Some (b, set_registry (<[k := b]> (registry c)) c)
          | None => None
          end
      | NameKey _ => None
      end
  end.

(** Modelled from the spec: step 2 of [Container.resolve], the cached
    instance of a SINGLETON binding.  TRANSIENT and SCOPED bindings are
    never cached (the specification leaves scopes out). *)
Definition cached (b : Binding) (k : ServiceKey) (c : Container)
    : option Instance :=
  match lifetime b with
  | SINGLETON => singletons c !! k
  | _ => None
  end.

(** Modelled from the spec: step 4 of [Container.resolve], a SINGLETON
    instance goes to the cache. *)
Definition store (b : Binding) (k : ServiceKey) (i : Instance) (c : Container)
    : Container :=
  match lifetime b with
  | SINGLETON => set_singletons (<[k := i]> (singletons c)) c
  | _ => c
  end.

(** Modelled from the spec: the set of keys under construction (section
    4.2, cycle handling), marked on entry and cleared when the factory is
    done, whether it returned or raised. *)
Definition enter (k : ServiceKey) (c : Container) : Container :=
  set_in_progress ({[k]} ∪ in_progress c) c.

Definition leave (k : ServiceKey) (c : Container) : Container :=
  set_in_progress (in_progress c ∖ {[k]}) c.

(** Modelled from the spec: step 3 of [Container.resolve], running the
    factory; [rec] is the [resolve] the factory calls back, on the state
    the container has at that moment. *)
Fixpoint exec (rec : ServiceKey → M Instance) (f : Factory) (s : St)
    : St * Outcome Instance :=
  match f with
  | FConstruct cls => let (s', i) := alloc cls s in (s', Returns i)
  | FReturn i => (s, Returns i)
  | FRaise e => (s, Raises e)
  | FResolve k cont =>
      match rec k s with
      | (s', Returns i) => exec rec (cont i) s'
      | (s', Raises e) => (s', Raises e)
      | (s', OutOfFuel) => (s', OutOfFuel)
      end
  end.

(** Modelled from the spec: [Container.resolve] of diwire, which is not
    among the sources; section 4.2, steps 1 to 5, with the cycle check in
    front of the factory call.  [n] bounds the nesting of factory calls,
    [d] is the number of factories running. *)
Fixpoint resolve_fuel (n d : nat) (k : ServiceKey) (s : St)
    : St * Outcome Instance :=
  match n with
  | 0 => (s, OutOfFuel)
  | S n' =>
      let s0 := log (EResolve d k) s in
      match find_binding k (box s0) with
      | None => (s0, Raises (UnregisteredServiceError k))
      | Some (b, c1) =>
          match cached b k c1 with
          | Some i => (with_box c1 s0, Returns i)
          | None =>
              if decide (k ∈ in_progress c1)
              then (with_box c1 s0, Raises (CircularDependencyError k))
              else
                let s2 := log (EFactory k) (with_box (enter k c1) s0) in
                match exec (resolve_fuel n' (S d)) (factory b) s2 with
                | (s3, Returns i) =>
                    (with_box (store b k i (leave k (box s3))) s3, Returns i)
                | (s3, Raises e) =>
                    (with_box (leave k (box s3)) s3, Raises e)
                | (s3, OutOfFuel) =>
                    (with_box (leave k (box s3)) s3, OutOfFuel)
                end
          end
      end
  end.

(** The keys the container can resolve at all. *)
Definition resolvable (c : Container) : gset ServiceKey :=
  dom (registry c) ∪ set_map TypeKey (dom classes).

(** Modelled from the spec: [container.resolve(k)] as the application
    calls it, no factory running.  The fuel is one more than the number of
    resolvable keys, which is enough ([Container_resolve_total]). *)
Definition Container_resolve (k : ServiceKey) : M Instance := λ s,
  resolve_fuel (S (size (resolvable (box s)))) 0 k s.

(** The events a call of [resolve] at depth [d] causes after its own
    [EResolve d]: calls from factories, hence deeper, and factory calls. *)
Definition inner (d : nat) (e : Event) : Prop :=
  match e with
  | EResolve d' _ => d < d'
  | EFactory _ => True
  | _ => False
  end.

(** The events of [t'] that come after those of [t]. *)
Definition since (t t' : list Event) : list Event := drop (length t) t'.

(** Resolving the keys of a list one after the other, whatever each call
    answers. *)
Fixpoint resolve_each (ks : list ServiceKey) (s : St) : St :=
  match ks with
  | [] => s
  | k :: ks => resolve_each ks (Container_resolve k s).1
  end.

(** The relation between the state before and the state after a call of
    [resolve]: what such a call may change and what it may not. *)
Record preserves (s s' : St) : Prop := {
  keep_cid : cid (box s') = cid (box s);
  keep_lifetime :
    autoregister_default_lifetime (box s')
    = autoregister_default_lifetime (box s);
  keep_in_progress : in_progress (box s') = in_progress (box s);
  keep_registry : registry (box s) ⊆ registry (box s');
  keep_resolvable :
    resolvable (box s') = resolvable (box s);
  new_bindings : ∀ k b,
    registry (box s') !! k = Some b →
    registry (box s) !! k = Some b
    ∨ (∃ cls, k = TypeKey cls)
      ∧ lifetime b = autoregister_default_lifetime (box s);
  keep_pending : ∀ k,
    k ∈ in_progress (box s) →
    singletons (box s') !! k = singletons (box s) !! k;
  keep_cached : ∀ k b i,
    registry (box s) !! k = Some b → lifetime b = SINGLETON →
    singletons (box s) !! k = Some i →
    singletons (box s') !! k = Some i;
  cache_bound : ∀ k,
    is_Some (singletons (box s') !! k) →
    is_Some (singletons (box s) !! k) ∨ is_Some (registry (box s') !! k);
  keep_trace : trace (world s) `prefix_of` trace (world s');
}.


(** A key is pending when its factory is running: a call of [resolve] on
    it gets past the cache and stops at the cycle check. *)
Definition pending (k : ServiceKey) (c : Container) : Prop :=
  k ∈ in_progress c ∧ ∃ b, registry c !! k = Some b ∧ cached b k c = None.

(** The binding [Registry.register] makes: a SINGLETON whose factory hands
    back whatever the container resolves for [t]. *)
Definition alias_of (t : ServiceKey) : Binding :=
  {| factory := FResolve t FReturn; lifetime := SINGLETON |}.

(** Key [a] is bound to the resolution of [t], both are singletons, and
    the cache holds for [a] nothing but the instance it holds for [t]. *)
Definition aliased (a t : ServiceKey) (c : Container) : Prop :=
  registry c !! a = Some (alias_of t)
  ∧ autoregister_default_lifetime c = SINGLETON
  ∧ (∀ b, registry c !! t = Some b → lifetime b = SINGLETON)
  ∧ (∀ j, singletons c !! a = Some j →
          singletons c !! t = Some j ∧ is_Some (registry c !! t)).

End Process.

(** * [src/ioc/registries.py] *)

Module Registry.

(** [Registry.register(self, container)]: one [container.register] call.
    The lambda closes over the parameter [container], the object the
    binding goes into: when the factory runs it resolves the class
    [FastAPIFactory] from that container, in the state it then has. *)
Definition register : M unit :=
  Container_register (NameKey "FastAPIFactory")
    (FResolve (TypeKey "FastAPIFactory") FReturn) SINGLETON.

End Registry.

(** * [src/ioc/container.py] *)

Module ContainerFactory.

Section Methods.

Variable classes : gmap string Factory.

(** How the external collaborators answer: [env m self tr] is the
    exception method [m] raises on [self] after the events [tr], or [None]
    when it returns. *)
Variable env : Method → Instance → list Event → option Exn.

(** How the modules of the application load: [imports module tr] is the
    exception importing [module] raises after the events [tr], or [None]
    when the import succeeds. *)
Variable imports : string → list Event → option Exn.

(** A method call on an external collaborator; [self] is the instance the
    container resolved. *)
Definition invoke (m : Method) (self : Instance) : M unit := λ s,
  let s1 := log (ECall m) s in
  match env m self (trace (world s)) with
  | Some e => (s1, Raises e)
  | None => (log (EReturn m) s1, Returns tt)
  end.

Definition _configure_django : M unit :=
  configurator <- Container_resolve classes (TypeKey "DjangoConfigurator") ;;
  invoke (DjangoConfigurator_configure "configs.django") configurator.

Definition _configure_logging : M unit :=
  configurator <- Container_resolve classes (TypeKey "LoggingConfigurator") ;;
  invoke LoggingConfigurator_configure configurator.

Definition _instrument_libraries : M unit :=
  instrumentor <- Container_resolve classes (TypeKey "OpenTelemetryInstrumentor") ;;
  invoke OpenTelemetryInstrumentor_instrument_libraries instrumentor.

(** An [import] statement in a function body is run at each call, and
    loading the module may raise: the comments of lines 18 and 45 say that
    [ioc.registries], which imports Django-related code, must not be
    imported before Django is set up.  The statement is observed, then the
    module is there or the exception of the import is raised. *)
Definition import_module (module : string) : M unit := λ s,
  let s1 := log (EImport module) s in
  match imports module (trace (world s)) with
  | Some e => (s1, Raises e)
  | None => (s1, Returns tt)
  end.

(** The import of line 46, then the two statements after it;
    [registry.register(container)] runs the code of
    [src/ioc/registries.py]. *)
Definition _register : M unit :=
  import_module "ioc.registries" ;;;
  registry <- Container_resolve classes (TypeKey "Registry") ;;
  emit (ECall Registry_register) ;;;
  Registry.register ;;;
  emit (EReturn Registry_register).

Definition when (flag : bool) (m : M unit) : M unit :=
  if flag then m else ret tt.

(** The phases of [__call__], lines 19 to 28, on the container of
    line 16. *)
Definition phases (configure_django configure_logging instrument_libraries : bool)
    : M unit :=
  when configure_django _configure_django ;;;
  when configure_logging _configure_logging ;;;
  when instrument_libraries _instrument_libraries ;;;
  _register.

(** [ContainerFactory.__call__]: a keyword argument left out is [None]
    and takes its default, [True]. *)
Definition __call__
    (configure_django configure_logging instrument_libraries : option bool)
    (w : World) : World * Outcome Container :=
  let configure_django := default true configure_django in
  let configure_logging := default true configure_logging in
  let instrument_libraries := default true instrument_libraries in
  let container := Container_new SINGLETON w in
  match phases configure_django configure_logging instrument_libraries
          container with
  | (s, Returns _) => (world s, Returns (box s))
  | (s, Raises e) => (world s, Raises e)
  | (s, OutOfFuel) => (world s, OutOfFuel)
  end.

End Methods.

End ContainerFactory.

(** * What is observed of a bootstrap *)

Section Observation.

Variable classes : gmap string Factory.
Variable env : Method → Instance → list Event → option Exn.

Definition steady {A} (m : M A) : Prop :=
  ∀ s, preserves classes s (m s).1.

(** The state [Registry.register] leaves, given the state it is called
    in. *)
Definition registered (s : St) : St :=
  log (EReturn Registry_register)
    (Registry.register (log (ECall Registry_register) s)).1.

(** The events the code of [ContainerFactory] and [Registry] causes itself,
    as opposed to those inside a call of [resolve]. *)
Definition toplevel (e : Event) : bool :=
  match e with
  | EResolve (S _) _ | EFactory _ => false
  | _ => true
  end.

(** The actions of one phase: resolve the collaborator, call its method,
    see it return. *)
Definition script_phase (k : ServiceKey) (m : Method) : list Event :=
  [EResolve 0 k; ECall m; EReturn m].

Definition script_register : list Event :=
  [EImport "ioc.registries";
   EResolve 0 (TypeKey "Registry"); ECall Registry_register;
   ERegister (NameKey "FastAPIFactory") SINGLETON;
   EReturn Registry_register].

Definition script (configure_django configure_logging instrument_libraries : bool)
    : list Event :=
  (if configure_django
   then script_phase (TypeKey "DjangoConfigurator")
          (DjangoConfigurator_configure "configs.django")
   else [])
  ++ (if configure_logging
      then script_phase (TypeKey "LoggingConfigurator")
             LoggingConfigurator_configure
      else [])
  ++ (if instrument_libraries
      then script_phase (TypeKey "OpenTelemetryInstrumentor")
             OpenTelemetryInstrumentor_instrument_libraries
      else [])
  ++ script_register.

(** A run follows a script when its own actions are the first actions of
    the script, and all of them when it returns. *)
Definition follows {A} (sc : list Event) (s : St) (r : St * Outcome A) : Prop :=
  ∃ delta,
    trace (world r.1) = trace (world s) ++ delta
    ∧ filter toplevel delta `prefix_of` sc
    ∧ (∀ a, r.2 = Returns a → filter toplevel delta = sc).

(** A run is fail-fast when a collaborator method that raises ends it:
    nothing happens after the call, and the run raises the very exception
    of the collaborator. *)
Definition fail_fast {A} (s : St) (r : St * Outcome A) : Prop :=
  ∃ delta,
    trace (world r.1) = trace (world s) ++ delta
    ∧ ∀ pre m post e,
        delta = pre ++ ECall m :: post →
        m ≠ Registry_register →
        (∀ i, env m i (trace (world s) ++ pre) = Some e) →
        post = [] ∧ r.2 = Raises e.

End Observation.

(** * A concrete process, for the examples *)

Definition demo_classes : gmap string Factory :=
  list_to_map
    [ ("DjangoConfigurator", FConstruct "DjangoConfigurator");
      ("LoggingConfigurator", FConstruct "LoggingConfigurator");
      ("OpenTelemetryInstrumentor", FConstruct "OpenTelemetryInstrumentor");
      ("Registry", FConstruct "Registry");
      ("FastAPIFactory", FConstruct "FastAPIFactory") ].

Definition quiet : Method → Instance → list Event → option Exn :=
  λ _ _ _, None.

(** Modules that all load. *)
Definition loaded : string → list Event → option Exn :=
  λ _ _, None.

(** Modules that load only once Django is set up: importing one before
    [DjangoConfigurator.configure] has returned raises. *)
Definition needs_django : string → list Event → option Exn :=
  λ _ tr,
    if bool_decide
         (EReturn (DjangoConfigurator_configure "configs.django") ∈ tr)
    then None
    else Some (ExternalError "AppRegistryNotReady").

Definition boot : World := {| trace := []; next_addr := 0 |}.

(** A process in which [DjangoConfigurator.configure] raises. *)
Definition misconfigured : Method → Instance → list Event → option Exn :=
  λ m _ _,
    match m with
    | DjangoConfigurator_configure _ => Some (ExternalError "ImproperlyConfigured")
    | _ => None
    end.

(** A container, built like the one of the bootstrap, in which two names
    are bound to factories that resolve each other, and a third to a
    factory that resolves itself. *)
Definition entangled : St :=
  let s := Container_new SINGLETON boot in
  let s := (Container_register (NameKey "a")
              (FResolve (NameKey "b") FReturn) SINGLETON s).1 in
  let s := (Container_register (NameKey "b")
              (FResolve (NameKey "a") FReturn) TRANSIENT s).1 in
  (Container_register (NameKey "self")
     (FResolve (NameKey "self") FReturn) SINGLETON s).1.

(** The scenario of the specification: a container with one SINGLETON
    binding, ["Svc"], whose factory builds a fresh object. *)
Definition with_svc : St :=
  (Container_register (NameKey "Svc") (FConstruct "Svc") SINGLETON
     (Container_new SINGLETON boot)).1.


(** A container with a SINGLETON binding whose factory raises. *)
Definition with_broken : St :=
  (Container_register (NameKey "Broken") (FRaise (ExternalError "broken"))
     SINGLETON (Container_new SINGLETON boot)).1.

(** * Further notions, for the properties of the two files as a whole *)

(** Every class bound in the registry is bound to the constructor call the
    container makes on its own: nobody registered a class by hand. *)
Definition autoregistered (classes : gmap string Factory) (c : Container)
    : Prop :=
  ∀ cls b, registry c !! TypeKey cls = Some b →
           classes !! cls = Some (factory b).

(** The container builds the class by a constructor call that needs
    nothing from the container and does not raise. *)
Definition plain (classes : gmap string Factory) (cls : string) : Prop :=
  ∃ c, classes !! cls = Some (FConstruct c).

(** A program leaves the name unbound and never calls a factory for it. *)
Definition never_builds (name : string) {A} (m : M A) : Prop :=
  ∀ s, registry (box s) !! NameKey name = None →
       registry (box (m s).1) !! NameKey name = None
       ∧ ∃ delta, trace (world (m s).1) = trace (world s) ++ delta
                  ∧ Forall (λ e, e ≠ EFactory (NameKey name)) delta.

(** A program never calls a factory for the name, as long as the name is
    unbound when it starts. *)
Definition builds_not (name : string) {A} (m : M A) : Prop :=
  ∀ s, registry (box s) !! NameKey name = None →
       ∃ delta, trace (world (m s).1) = trace (world s) ++ delta
                ∧ Forall (λ e, e ≠ EFactory (NameKey name)) delta.

(** A program ends at event [ev]: in a run started in a [good] state, when
    [ev] occurs after events that satisfy [cond], nothing follows it and
    the run raises [e]. *)
Definition ends_at (good : St → Prop) (ev : Event)
    (cond : list Event → Prop) (e : Exn) {A} (m : M A) : Prop :=
  ∀ s, good s →
    good (m s).1
    ∧ ∃ delta,
        trace (world (m s).1) = trace (world s) ++ delta
        ∧ ∀ pre post,
            delta = pre ++ ev :: post → cond (trace (world s) ++ pre) →
            post = [] ∧ (m s).2 = Raises e.

(** The container has no binding for the class and cannot build it. *)
Definition unknown (classes : gmap string Factory) (cls : string) (s : St)
    : Prop :=
  TypeKey cls ∉ resolvable classes (box s).

(** A process whose container cannot build class [LoggingConfigurator]. *)
Definition no_logging : gmap string Factory :=
  delete "LoggingConfigurator" demo_classes.

(** * What every resolution leaves in place *)

Section Resolver.

Variable classes : gmap string Factory.

#[local] Abbreviation preserves := (preserves classes).
#[local] Abbreviation resolve_each := (resolve_each classes).

Lemma preserves_refl s : preserves s s.
Proof. split; eauto. Qed.

Lemma preserves_trans s1 s2 s3 :
  preserves s1 s2 → preserves s2 s3 → preserves s1 s3.
Proof.
  intros [] []. split.
  - congruence.
  - congruence.
  - congruence.
  - etrans; eauto.
  - congruence.
  - intros k b Hb. destruct (new_bindings1 k b Hb) as [H|[H1 H2]].
    + eauto.
    + right. split; [done | congruence].
  - intros k Hk. rewrite keep_pending1; [eauto | congruence].
  - intros k b i Hb Hl Hi. eapply keep_cached1; eauto.
    eapply lookup_weaken; eauto.
  - intros k Hk. destruct (cache_bound1 k Hk) as [H|H]; [|by right].
    destruct (cache_bound0 k H) as [H'|[b H']]; [by left | right].
    exists b. eapply lookup_weaken; eauto.
  - etrans; eauto.
Qed.

Lemma preserves_log e s : preserves s (log e s).
Proof. split; simpl; eauto. by apply prefix_app_r. Qed.

Lemma preserves_alloc cls s : preserves s (alloc cls s).1.
Proof. split; simpl; eauto. Qed.

(** Step 1 finds the registered binding, or registers the class. *)
Lemma find_binding_spec k c b c1 :
  find_binding classes k c = Some (b, c1) →
  registry c1 !! k = Some b
  ∧ (∀ s, box s = c → preserves s (with_box c1 s))
  ∧ singletons c1 = singletons c
  ∧ (∀ b', registry c !! k = Some b' → b' = b ∧ c1 = c).
Proof.
  unfold find_binding. destruct (registry c !! k) as [b0|] eqn:Hk.
  - intros [= <- <-]. split; [done|]. split; [|split; [done|]].
    + intros [c' w] [= ->]. apply preserves_refl.
    + by intros b' [= ->].
  - destruct k as [cls|]; [|done].
    destruct (classes !! cls) as [f|] eqn:Hc; [|done].
    intros [= <- <-]. split; [simpl; by rewrite lookup_insert_eq|].
    split; [|split; [done|done]].
    intros [c' w] [= ->]. split; simpl; eauto.
    + by apply insert_subseteq.
    + unfold resolvable. simpl. rewrite dom_insert_L.
      assert (TypeKey cls ∈ (set_map TypeKey (dom classes) : gset ServiceKey)).
      { apply elem_of_map. exists cls. split; [done|].
        apply elem_of_dom. eauto. }
      set_solver.
    + intros k b. rewrite lookup_insert. case_decide as Hd.
      * intros [= <-]. right. split; eauto.
      * eauto.
Qed.

Lemma exec_preserves rec :
  (∀ k s, preserves s (rec k s).1) →
  ∀ f s, preserves s (exec rec f s).1.
Proof.
  intros Hrec. induction f as [cls|i|e|k cont IH]; intros s; simpl.
  - apply (preserves_alloc cls s).
  - apply preserves_refl.
  - apply preserves_refl.
  - specialize (Hrec k s). destruct (rec k s) as [s' [i|e|]]; simpl in *; eauto.
    eapply preserves_trans; eauto.
Qed.

(** Entering a construction, running it and leaving it again. *)
Lemma bracket_preserves k b s1 s3 :
  k ∉ in_progress (box s1) →
  registry (box s1) !! k = Some b →
  cached b k (box s1) = None →
  preserves (log (EFactory k) (with_box (enter k (box s1)) s1)) s3 →
  preserves s1 (with_box (leave k (box s3)) s3)
  ∧ ∀ i, preserves s1 (with_box (store b k i (leave k (box s3))) s3).
Proof.
  intros Hk Hb Hc [H1 H2 H3 H4 H5 H6 H7 H8 H9 H10]. simpl in *.
  assert (Hne : ∀ k', k' ∈ in_progress (box s1) → k' ≠ k) by set_solver.
  assert (Hleave : preserves s1 (with_box (leave k (box s3)) s3)).
  { split; simpl; eauto.
    - rewrite H3. set_solver.
    - intros k' Hk'. apply H7. set_solver.
    - destruct H10 as [l Hl]. rewrite Hl. exists ([EFactory k] ++ l).
      by rewrite <- !app_assoc. }
  split; [done|]. intros i. unfold store.
  destruct (lifetime b) eqn:Hl; try done.
  destruct Hleave as [G1 G2 G3 G4 G5 G6 G7 G8 G9 G10]. simpl in *.
  split; simpl; eauto.
  - intros k' Hk'. rewrite lookup_insert_ne; [|by apply not_eq_sym, Hne].
    by apply G7.
  - intros k' b' i' Hb' Hl' Hi'. destruct (decide (k = k')) as [<-|Hd].
    + unfold cached in Hc. rewrite Hl in Hc. congruence.
    + rewrite lookup_insert_ne; eauto.
  - intros k' Hk'. destruct (decide (k = k')) as [<-|Hd].
    + right. exists b. eapply lookup_weaken; eauto.
    + rewrite lookup_insert_ne in Hk'; eauto.
Qed.

Lemma resolve_fuel_preserves n :
  ∀ d k s, preserves s (resolve_fuel classes n d k s).1.
Proof.
  induction n as [|n IH]; intros d k s; simpl; [apply preserves_refl|].
  pose proof (preserves_log (EResolve d k) s) as Hlog.
  destruct (find_binding classes k (box s)) as [[b c1]|] eqn:Hf;
    [|exact Hlog].
  apply find_binding_spec in Hf as (Hb & Hp & Hs & _).
  specialize (Hp (log (EResolve d k) s) eq_refl).
  assert (Hs1 : preserves s (with_box c1 (log (EResolve d k) s)))
    by (eapply preserves_trans; eauto).
  destruct (cached b k c1) as [i|] eqn:Hc; [done|].
  case_decide as Hin; [done|].
  pose proof (exec_preserves _ (IH (S d)) (factory b)
    (log (EFactory k) (with_box (enter k c1) (log (EResolve d k) s)))) as He.
  destruct (exec _ _ _) as [s3 o]. simpl in He.
  apply (bracket_preserves k b (with_box c1 (log (EResolve d k) s))) in He
    as [He1 He2]; try done.
  destruct o; simpl; eapply preserves_trans; eauto.
Qed.

(** ** The events of a resolution *)

Lemma inner_mono d d' e : d ≤ d' → inner d' e → inner d e.
Proof. destruct e; simpl; try done. lia. Qed.

Lemma exec_events rec (G : St → Prop) (P : Event → Prop) :
  (∀ k s, G s →
     G (rec k s).1
     ∧ ∃ delta, trace (world (rec k s).1) = trace (world s) ++ delta
                ∧ Forall P delta) →
  ∀ f s, G s →
    ∃ delta, trace (world (exec rec f s).1) = trace (world s) ++ delta
             ∧ Forall P delta.
Proof.
  intros Hrec. induction f as [cls|i|e|k cont IH]; intros s HG; simpl.
  - exists []. by rewrite app_nil_r.
  - exists []. by rewrite app_nil_r.
  - exists []. by rewrite app_nil_r.
  - destruct (Hrec k s HG) as (HG' & l1 & E1 & F1).
    destruct (rec k s) as [s' [i|e|]]; simpl in *; eauto.
    destruct (IH i s' HG') as (l2 & E2 & F2).
    exists (l1 ++ l2). rewrite E2, E1, app_assoc. split; [done|].
    by apply Forall_app.
Qed.

Lemma resolve_fuel_trace n :
  ∀ d k s, ∃ rest,
    trace (world (resolve_fuel classes n d k s).1)
    = trace (world s) ++ match n with 0 => [] | S _ => [EResolve d k] end ++ rest
    ∧ Forall (inner d) rest.
Proof.
  induction n as [|n IH]; intros d k s; simpl.
  { exists []. by rewrite app_nil_r. }
  destruct (find_binding classes k (box s)) as [[b c1]|] eqn:Hf;
    [|by exists []].
  destruct (cached b k c1) as [i|] eqn:Hc; [by exists []|].
  case_decide as Hin; [by exists []|].
  assert (Hrec : ∀ k' s', True → True ∧ ∃ delta,
    trace (world (resolve_fuel classes n (S d) k' s').1)
    = trace (world s') ++ delta ∧ Forall (inner d) delta).
  { intros k' s' _. split; [done|].
    destruct (IH (S d) k' s') as (rest & E & F).
    eexists. split; [exact E|]. apply Forall_app. split.
    - destruct n; constructor; simpl; [lia | constructor].
    - eapply Forall_impl; [exact F|]. intros e. apply inner_mono. lia. }
  destruct (exec_events _ _ _ Hrec (factory b)
    (log (EFactory k) (with_box (enter k c1) (log (EResolve d k) s))) I)
    as (l & E & F).
  destruct (exec _ _ _) as [s3 o]. simpl in E.
  exists (EFactory k :: l). split.
  - destruct o; simpl; rewrite E, <- !app_assoc; done.
  - by constructor.
Qed.

(** ** Termination *)

Lemma exec_total rec (G : St → Prop) :
  (∀ k s, G s → (rec k s).2 ≠ OutOfFuel ∧ G (rec k s).1) →
  ∀ f s, G s → (exec rec f s).2 ≠ OutOfFuel.
Proof.
  intros Hrec. induction f as [cls|i|e|k cont IH]; intros s HG; simpl;
    try done.
  destruct (Hrec k s HG) as [H1 H2].
  destruct (rec k s) as [s' [i|e|]]; simpl in *; eauto.
Qed.

(** The nesting of factory calls never exceeds the number of resolvable
    keys that are not under construction. *)
Lemma resolve_fuel_total n :
  ∀ d k s,
    size (resolvable classes (box s) ∖ in_progress (box s)) < n →
    (resolve_fuel classes n d k s).2 ≠ OutOfFuel.
Proof.
  induction n as [|n IH]; intros d k s Hn; [lia|]. simpl.
  destruct (find_binding classes k (box s)) as [[b c1]|] eqn:Hf; [|done].
  apply find_binding_spec in Hf as (Hb & Hp & Hs & _).
  specialize (Hp (log (EResolve d k) s) eq_refl).
  destruct (cached b k c1) as [i|] eqn:Hc; [done|].
  case_decide as Hin; [done|].
  set (s2 := log (EFactory k) (with_box (enter k c1) (log (EResolve d k) s))).
  set (G := λ s' : St,
    size (resolvable classes (box s') ∖ in_progress (box s')) < n).
  assert (HG : G s2).
  { unfold G, s2. simpl.
    destruct Hp as [_ _ P3 _ P5 _ _ _ _ _]. simpl in *.
    unfold resolvable in *. simpl in *.
    eapply Nat.lt_le_trans; [|apply Nat.lt_succ_r, Hn].
    apply subset_size.
    assert (k ∈ dom (registry c1)) by (apply elem_of_dom; eauto).
    rewrite <- P5, <- P3. set_solver. }
  assert (Hrec : ∀ k' s', G s' →
    (resolve_fuel classes n (S d) k' s').2 ≠ OutOfFuel
    ∧ G (resolve_fuel classes n (S d) k' s').1).
  { intros k' s' HG'. split; [by apply IH|].
    destruct (resolve_fuel_preserves n (S d) k' s') as [_ _ P3 _ P5 _ _ _ _ _].
    unfold G. by rewrite P3, P5. }
  pose proof (exec_total _ G Hrec (factory b) s2 HG) as He.
  destruct (exec _ _ _) as [s3 o]. by destruct o.
Qed.

(** More fuel changes nothing once the fuel is enough. *)
Lemma exec_more rec rec' :
  (∀ k s, (rec k s).2 ≠ OutOfFuel → rec' k s = rec k s) →
  ∀ f s, (exec rec f s).2 ≠ OutOfFuel → exec rec' f s = exec rec f s.
Proof.
  intros Hrec. induction f as [cls|i|e|k cont IH]; intros s Hs; simpl in *;
    try done.
  specialize (Hrec k s). destruct (rec k s) as [s' [i|e|]] eqn:E; simpl in *.
  - rewrite Hrec by done. by apply IH.
  - by rewrite Hrec.
  - done.
Qed.

Lemma resolve_fuel_more n :
  ∀ d k s,
    (resolve_fuel classes n d k s).2 ≠ OutOfFuel →
    resolve_fuel classes (S n) d k s = resolve_fuel classes n d k s.
Proof.
  induction n as [|n IH]; intros d k s Hs; [done|].
  change (resolve_fuel classes (S (S n)) d k s) with
    (let s0 := log (EResolve d k) s in
     match find_binding classes k (box s0) with
     | None => (s0, Raises (UnregisteredServiceError k))
     | Some (b, c1) =>
         match cached b k c1 with
         | Some i => (with_box c1 s0, Returns i)
         | None =>
             if decide (k ∈ in_progress c1)
             then (with_box c1 s0, Raises (CircularDependencyError k))
             else
               let s2 := log (EFactory k) (with_box (enter k c1) s0) in
               match exec (resolve_fuel classes (S n) (S d)) (factory b) s2 with
               | (s3, Returns i) =>
                   (with_box (store b k i (leave k (box s3))) s3, Returns i)
               | (s3, Raises e) => (with_box (leave k (box s3)) s3, Raises e)
               | (s3, OutOfFuel) => (with_box (leave k (box s3)) s3, OutOfFuel)
               end
         end
     end).
  simpl in Hs |- *.
  destruct (find_binding classes k (box s)) as [[b c1]|]; [|done].
  destruct (cached b k c1) as [i|]; [done|].
  case_decide; [done|].
  rewrite (exec_more (resolve_fuel classes n (S d)) _ (IH (S d))); [done|].
  by destruct (exec _ _ _) as [s3 [i|e|]].
Qed.

Lemma resolve_fuel_enough n m d k s :
  (resolve_fuel classes n d k s).2 ≠ OutOfFuel →
  n ≤ m → resolve_fuel classes m d k s = resolve_fuel classes n d k s.
Proof.
  intros Hs. induction 1 as [|m _ IH]; [done|].
  rewrite resolve_fuel_more; [done|]. by rewrite IH.
Qed.

(** ** Singletons *)

(** A call that returns leaves the key bound, and a SINGLETON instance in
    the cache. *)
Lemma resolve_fuel_returns n d k s s' i :
  resolve_fuel classes n d k s = (s', Returns i) →
  ∃ b, registry (box s') !! k = Some b
       ∧ (lifetime b = SINGLETON → singletons (box s') !! k = Some i)
       ∧ (∀ b0, registry (box s) !! k = Some b0 → b0 = b).
Proof.
  destruct n as [|n]; [done|]. simpl.
  destruct (find_binding classes k (box s)) as [[b c1]|] eqn:Hf; [|done].
  apply find_binding_spec in Hf as (Hb & Hp & Hs & Hsame).
  destruct (cached b k c1) as [j|] eqn:Hc.
  { intros [= <- <-]. exists b. simpl. split; [done|]. split.
    - intros Hl. unfold cached in Hc. by rewrite Hl in Hc.
    - intros b0 H0. by apply Hsame. }
  case_decide as Hin; [done|].
  pose proof (exec_preserves _ (resolve_fuel_preserves n (S d)) (factory b)
    (log (EFactory k) (with_box (enter k c1) (log (EResolve d k) s)))) as He.
  destruct (exec _ _ _) as [s3 o]. simpl in He.
  destruct o as [j| |]; try done. intros [= <- <-]. exists b.
  destruct He as [_ _ _ P4 _ _ _ _ _ _]. simpl in P4.
  assert (registry (box s3) !! k = Some b) by (eapply lookup_weaken; eauto).
  split; [|split].
  - unfold store. by destruct (lifetime b).
  - intros Hl. unfold store. rewrite Hl. simpl. by rewrite lookup_insert_eq.
  - intros b0 H0. by apply Hsame.
Qed.



(** ** Cycles *)

Lemma since_app t l : since t (t ++ l) = l.
Proof. unfold since. by rewrite drop_app_length. Qed.

Lemma since_refl t : since t t = [].
Proof. unfold since. by rewrite drop_all. Qed.

Lemma since_trans t1 t2 t3 :
  t1 `prefix_of` t2 → t2 `prefix_of` t3 →
  since t1 t3 = since t1 t2 ++ since t2 t3.
Proof.
  intros [a ->] [b ->]. rewrite (since_app (t1 ++ a) b), since_app.
  by rewrite <- app_assoc, since_app.
Qed.

Lemma pending_preserved k s s' :
  preserves s s' → pending k (box s) → pending k (box s').
Proof.
  intros [_ _ P3 P4 _ _ P7 _ _ _] (Hin & b & Hb & Hc). split.
  - by rewrite P3.
  - exists b. split; [eapply lookup_weaken; eauto|].
    unfold cached in *. destruct (lifetime b); try done.
    by rewrite P7.
Qed.

Lemma exec_reentry rec k :
  (∀ k' s, preserves s (rec k' s).1) →
  (∀ k' s d', pending k (box s) →
     EResolve d' k ∈ since (trace (world s)) (trace (world (rec k' s).1)) →
     (rec k' s).2 = Raises (CircularDependencyError k)) →
  ∀ f s d', pending k (box s) →
    EResolve d' k ∈ since (trace (world s)) (trace (world (exec rec f s).1)) →
    (exec rec f s).2 = Raises (CircularDependencyError k).
Proof.
  intros Hp Hrec. induction f as [cls|i|e|k1 cont IH]; intros s d' Hk; simpl.
  - rewrite since_refl. by intros ?%elem_of_nil.
  - rewrite since_refl. by intros ?%elem_of_nil.
  - rewrite since_refl. by intros ?%elem_of_nil.
  - pose proof (Hp k1 s) as Hp1. specialize (Hrec k1 s d' Hk).
    destruct (rec k1 s) as [s' [i|e|]] eqn:E1; simpl in *; eauto.
    intros Hin.
    rewrite (since_trans _ (trace (world s'))) in Hin;
      [|by destruct Hp1|by destruct (exec_preserves rec Hp (cont i) s')].
    apply elem_of_app in Hin as [Hin|Hin]; [by specialize (Hrec Hin)|].
    eapply IH; [|exact Hin]. eapply pending_preserved; eauto.
Qed.

Lemma resolve_fuel_reentry k n :
  ∀ d k' s d', pending k (box s) →
    EResolve d' k
    ∈ since (trace (world s)) (trace (world (resolve_fuel classes n d k' s).1)) →
    (resolve_fuel classes n d k' s).2 = Raises (CircularDependencyError k).
Proof.
  induction n as [|n IH]; intros d k' s d' Hk; simpl.
  { rewrite since_refl. by intros ?%elem_of_nil. }
  destruct (decide (k' = k)) as [->|Hne].
  { destruct Hk as (Hin & b & Hb & Hc). unfold find_binding.
    rewrite Hb, Hc. by rewrite decide_True. }
  assert (Hone : ∀ l, l = [EResolve d k'] → EResolve d' k ∈ l → False).
  { intros l -> [=]%list_elem_of_singleton. congruence. }
  destruct (find_binding classes k' (box s)) as [[b c1]|] eqn:Hf;
    [|simpl; rewrite since_app; intros ?; exfalso; eauto].
  apply find_binding_spec in Hf as (Hb & Hp & Hs & Hsame).
  specialize (Hp (log (EResolve d k') s) eq_refl).
  destruct (cached b k' c1) as [i|] eqn:Hc;
    [simpl; rewrite since_app; intros ?; exfalso; eauto|].
  case_decide as Hin;
    [simpl; rewrite since_app; intros ?; exfalso; eauto|].
  set (s2 := log (EFactory k') (with_box (enter k' c1) (log (EResolve d k') s))).
  assert (H2 : pending k (box s2)).
  { apply (pending_preserved k _ _ Hp) in Hk as (Hk1 & b' & Hb' & Hc').
    split; [simpl in *; set_solver|]. exists b'. done. }
  pose proof (exec_preserves _ (resolve_fuel_preserves n (S d)) (factory b) s2)
    as [_ _ _ _ _ _ _ _ _ [l Hl]].
  pose proof (exec_reentry _ k (resolve_fuel_preserves n (S d))
    (λ k0 s0 d0, IH (S d) k0 s0 d0) (factory b) s2 d' H2) as He.
  destruct (exec _ _ _) as [s3 o]. simpl in *.
  rewrite Hl, since_app in He.
  assert (Hev : EResolve d' k
    ∈ since (trace (world s)) (trace (world s3)) → o = Raises (CircularDependencyError k)).
  { rewrite Hl, <- !app_assoc, since_app. simpl.
    intros [[=]|[[=]|H]%elem_of_cons]%elem_of_cons; [congruence|eauto]. }
  destruct o; simpl; intros H; specialize (Hev H); congruence.
Qed.

(** ** Calls from the application *)

Lemma Container_resolve_preserves k s :
  preserves s (Container_resolve classes k s).1.
Proof. apply resolve_fuel_preserves. Qed.

Lemma Container_resolve_total k s :
  (Container_resolve classes k s).2 ≠ OutOfFuel.
Proof.
  apply resolve_fuel_total. apply Nat.lt_succ_r, subseteq_size. set_solver.
Qed.

Lemma Container_resolve_trace k s :
  ∃ rest,
    trace (world (Container_resolve classes k s).1)
    = trace (world s) ++ EResolve 0 k :: rest
    ∧ Forall (inner 0) rest.
Proof. apply (resolve_fuel_trace (S _) 0 k s). Qed.

(** A cached SINGLETON is handed back at once. *)
Lemma resolve_fuel_cached n d k s b i :
  registry (box s) !! k = Some b → lifetime b = SINGLETON →
  singletons (box s) !! k = Some i →
  resolve_fuel classes (S n) d k s = (log (EResolve d k) s, Returns i).
Proof.
  intros Hb Hl Hi. simpl. unfold find_binding, cached. by rewrite Hb, Hl, Hi.
Qed.

Lemma resolve_each_preserves ks : ∀ s, preserves s (resolve_each ks s).
Proof.
  induction ks as [|k ks IH]; intros s; simpl; [apply preserves_refl|].
  eapply preserves_trans; [apply Container_resolve_preserves | apply IH].
Qed.


Lemma filter_none {A} (P : A → Prop) `{!∀ x, Decision (P x)} (l : list A) :
  Forall (λ x, ¬ P x) l → filter P l = [].
Proof.
  induction 1 as [|x l Hx _ IH]; [done|]. by rewrite filter_cons_False.
Qed.





(** ** A name bound to the resolution of another key *)

Lemma exec_invariant rec (G : Container → Prop) :
  (∀ k s, G (box s) → G (box (rec k s).1)) →
  ∀ f s, G (box s) → G (box (exec rec f s).1).
Proof.
  intros Hrec. induction f as [cls|i|e|k cont IH]; intros s HG; simpl;
    try done.
  specialize (Hrec k s HG).
  destruct (rec k s) as [s' [i|e|]]; simpl in *; eauto.
Qed.

Lemma find_binding_aliased a t k c b c1 :
  find_binding classes k c = Some (b, c1) → aliased a t c →
  aliased a t c1
  ∧ (k = a → b = alias_of t)
  ∧ (k = t → lifetime b = SINGLETON).
Proof.
  unfold find_binding. intros Hf (Ha & Hd & Ht & Hc).
  destruct (registry c !! k) as [b0|] eqn:Hk.
  { injection Hf as <- <-. split; [done|]. split.
    - intros ->. congruence.
    - intros ->. eauto. }
  destruct k as [cls|]; [|done].
  destruct (classes !! cls) as [f|]; [|done].
  injection Hf as <- <-. split; [|split].
  - assert (a ≠ TypeKey cls) by congruence.
    split; [|split; [|split]]; simpl.
    + by rewrite lookup_insert_ne.
    + done.
    + intros b. rewrite lookup_insert. case_decide; [by intros [= <-]|eauto].
    + intros j Hj. destruct (Hc j Hj) as [H1 H2]. split; [done|].
      rewrite lookup_insert. case_decide; eauto.
  - intros <-. congruence.
  - by intros _.
Qed.

Lemma resolve_fuel_aliased a t n :
  a ≠ t →
  ∀ d k s, aliased a t (box s) →
    aliased a t (box (resolve_fuel classes n d k s).1).
Proof.
  intros Hat. induction n as [|n IH]; intros d k s HA; simpl; [done|].
  destruct (find_binding classes k (box s)) as [[b c1]|] eqn:Hf; [|done].
  destruct (find_binding_aliased a t _ _ _ _ Hf HA) as (H1 & Hka & Hkt).
  apply find_binding_spec in Hf as (Hb & _ & Hs & _).
  destruct (cached b k c1) as [i|] eqn:Hc; [done|].
  case_decide as Hin; [done|].
  set (s2 := log (EFactory k) (with_box (enter k c1) (log (EResolve d k) s))).
  pose proof (exec_invariant _ (aliased a t) (IH (S d)) (factory b) s2 H1)
    as H3.
  pose proof (exec_preserves _ (resolve_fuel_preserves n (S d)) (factory b) s2)
    as Hp.
  destruct (exec _ _ _) as [s3 o] eqn:He. simpl in H3, Hp.
  destruct o as [i| |]; simpl; try done.
  unfold store. destruct (lifetime b) eqn:Hl; try done.
  destruct H3 as (Ha & Hd & Ht & Hcoh).
  destruct (decide (k = a)) as [->|Hna]; [|destruct (decide (k = t)) as [->|Hnt]].
  - rewrite (Hka eq_refl) in He. simpl in He.
    destruct (resolve_fuel classes n (S d) t s2) as [s' [i'| |]] eqn:Hr;
      try done.
    injection He as -> ->.
    apply resolve_fuel_returns in Hr as (bT & HbT & HiT & _).
    split; [|split; [|split]]; simpl; try done.
    intros j. rewrite lookup_insert_eq. intros [= <-].
    rewrite lookup_insert_ne by done. split; [eauto|eauto].
  - split; [|split; [|split]]; simpl; try done.
    intros j. rewrite lookup_insert_ne by done. intros Hj.
    destruct (Hcoh j Hj) as [Hjt _].
    destruct Hp as [_ _ _ _ _ _ P7 _ _ _].
    rewrite P7 in Hjt by (simpl; set_solver). simpl in Hjt.
    unfold cached in Hc. rewrite Hl in Hc. congruence.
  - split; [|split; [|split]]; simpl; try done.
    intros j. rewrite !lookup_insert_ne by done. eauto.
Qed.

End Resolver.

(** * The bootstrap *)

Section Bootstrap.

Variable classes : gmap string Factory.
Variable env : Method → Instance → list Event → option Exn.
Variable imports : string → list Event → option Exn.

#[local] Abbreviation _configure_django := (ContainerFactory._configure_django classes env).
#[local] Abbreviation _configure_logging := (ContainerFactory._configure_logging classes env).
#[local] Abbreviation _instrument_libraries :=
  (ContainerFactory._instrument_libraries classes env).
#[local] Abbreviation _register := (ContainerFactory._register classes imports).
#[local] Abbreviation phases := (ContainerFactory.phases classes env imports).
#[local] Abbreviation __call__ := (ContainerFactory.__call__ classes env imports).
#[local] Abbreviation invoke := (ContainerFactory.invoke env).
#[local] Abbreviation when := ContainerFactory.when.
#[local] Abbreviation steady := (steady classes).
#[local] Abbreviation fail_fast := (fail_fast env).

(** ** What the phases before the registration leave in place *)

Lemma steady_bind {A B} (m : M A) (f : A → M B) :
  steady m → (∀ a, steady (f a)) → steady (bind m f).
Proof.
  intros Hm Hf s. unfold bind. specialize (Hm s).
  destruct (m s) as [s' [a|e|]]; simpl in *; try done.
  eapply preserves_trans; [exact Hm | apply Hf].
Qed.

Lemma steady_ret {A} (a : A) : steady (ret a).
Proof. intros s. apply preserves_refl. Qed.

Lemma steady_emit e : steady (emit e).
Proof. intros s. apply preserves_log. Qed.

Lemma steady_invoke m i : steady (invoke m i).
Proof.
  intros s. unfold ContainerFactory.invoke.
  destruct (env m i (trace (world s))); simpl.
  - apply preserves_log.
  - eapply preserves_trans; apply preserves_log.
Qed.

Lemma steady_resolve k : steady (Container_resolve classes k).
Proof. intros s. apply Container_resolve_preserves. Qed.

Lemma steady_when flag (m : M unit) : steady m → steady (when flag m).
Proof. destruct flag; [done|]. intros _. apply steady_ret. Qed.

Lemma steady_configure_django : steady _configure_django.
Proof.
  apply steady_bind; [apply steady_resolve | intros; apply steady_invoke].
Qed.

Lemma steady_configure_logging : steady _configure_logging.
Proof.
  apply steady_bind; [apply steady_resolve | intros; apply steady_invoke].
Qed.

Lemma steady_instrument_libraries : steady _instrument_libraries.
Proof.
  apply steady_bind; [apply steady_resolve | intros; apply steady_invoke].
Qed.

Lemma register_returns s s' :
  _register s = (s', Returns tt) →
  ∃ s1, preserves classes s s1 ∧ s' = registered s1.
Proof.
  unfold ContainerFactory._register, ContainerFactory.import_module, bind, emit.
  destruct (imports _ _); [done|].
  pose proof (Container_resolve_preserves classes (TypeKey "Registry")
    (log (EImport "ioc.registries") s)) as Hp.
  destruct (Container_resolve classes (TypeKey "Registry") _) as [s1 [i|e|]];
    try done.
  simpl in *. intros [= <-]. exists s1. split; [|done].
  eapply preserves_trans; [apply preserves_log | exact Hp].
Qed.

Lemma phases_returns f1 f2 f3 s s' :
  phases f1 f2 f3 s = (s', Returns tt) →
  ∃ s1, preserves classes s s1 ∧ s' = registered s1.
Proof.
  unfold ContainerFactory.phases. unfold bind at 1.
  pose proof (steady_when f1 _ steady_configure_django s) as H1.
  destruct (when f1 _configure_django s) as [s1 [[]|e|]]; try done.
  unfold bind at 1.
  pose proof (steady_when f2 _ steady_configure_logging s1) as H2.
  destruct (when f2 _configure_logging s1) as [s2 [[]|e|]]; try done.
  unfold bind at 1.
  pose proof (steady_when f3 _ steady_instrument_libraries s2) as H3.
  destruct (when f3 _instrument_libraries s2) as [s3 [[]|e|]]; try done.
  simpl in *. intros (s4 & H4 & ->)%register_returns.
  exists s4. split; [|done].
  repeat (eapply preserves_trans; [eassumption|]). apply preserves_refl.
Qed.

(** ** The actions of the bootstrap code, in order *)

Lemma filter_toplevel_inner rest :
  Forall (inner 0) rest → filter toplevel rest = [].
Proof.
  intros F. apply filter_none. eapply Forall_impl; [exact F|].
  intros [md|[|d] k|k|k lt|m|m] H Ht; simpl in *; try done. lia.
Qed.

Lemma follows_bind {A B} sc1 sc2 (m : M A) (f : A → M B) s :
  follows sc1 s (m s) →
  (∀ a s1, m s = (s1, Returns a) → follows sc2 s1 (f a s1)) →
  follows (sc1 ++ sc2) s (bind m f s).
Proof.
  intros (l1 & E1 & P1 & R1) H2. unfold bind.
  destruct (m s) as [s1 [a|e|]]; simpl in *.
  - destruct (H2 a s1 eq_refl) as (l2 & E2 & P2 & R2).
    exists (l1 ++ l2). rewrite E2, E1, app_assoc, filter_app.
    rewrite (R1 a eq_refl). split; [done|]. split.
    + by apply prefix_app.
    + intros b Hb. by rewrite (R2 b Hb).
  - exists l1. split; [done|]. split; [|done]. by apply prefix_app_r.
  - exists l1. split; [done|]. split; [|done]. by apply prefix_app_r.
Qed.

Lemma follows_phase k m s :
  follows (script_phase k m) s
    (bind (Container_resolve classes k) (λ i, invoke m i) s).
Proof.
  destruct (Container_resolve_trace classes k s) as (rest & E & F).
  apply filter_toplevel_inner in F. unfold bind.
  destruct (Container_resolve classes k s) as [s1 [i|e|]]; simpl in *.
  - unfold ContainerFactory.invoke.
    destruct (env m i (trace (world s1))) as [e|]; simpl.
    + exists (EResolve 0 k :: rest ++ [ECall m]). simpl. rewrite E.
      split; [by rewrite <- app_assoc|]. split; [|done].
      rewrite filter_cons_True, filter_app, F by done. simpl.
      by exists [EReturn m].
    + exists (EResolve 0 k :: rest ++ [ECall m; EReturn m]). simpl. rewrite E.
      split; [by rewrite <- !app_assoc|].
      rewrite filter_cons_True, filter_app, F by done. done.
  - exists (EResolve 0 k :: rest). split; [done|]. split; [|done].
    rewrite filter_cons_True, F by done. by eexists.
  - exists (EResolve 0 k :: rest). split; [done|]. split; [|done].
    rewrite filter_cons_True, F by done. by eexists.
Qed.

Lemma follows_register s : follows script_register s (_register s).
Proof.
  destruct (Container_resolve_trace classes (TypeKey "Registry")
    (log (EImport "ioc.registries") s)) as (rest & E & F).
  apply filter_toplevel_inner in F.
  unfold ContainerFactory._register, ContainerFactory.import_module, bind, emit.
  destruct (imports _ _).
  { exists [EImport "ioc.registries"]. split; [done|]. split; [|done].
    by eexists. }
  destruct (Container_resolve classes (TypeKey "Registry") _)
    as [s1 [i|e|]]; simpl in *.
  - exists (EImport "ioc.registries" :: EResolve 0 (TypeKey "Registry") :: rest
            ++ [ECall Registry_register;
                ERegister (NameKey "FastAPIFactory") SINGLETON;
                EReturn Registry_register]).
    simpl. rewrite E. split; [by rewrite <- !app_assoc|].
    rewrite !filter_cons_True, filter_app, F by done. done.
  - exists (EImport "ioc.registries" :: EResolve 0 (TypeKey "Registry") :: rest).
    simpl. split; [by rewrite E, <- app_assoc|]. split; [|done].
    rewrite !filter_cons_True, F by done. by eexists.
  - exists (EImport "ioc.registries" :: EResolve 0 (TypeKey "Registry") :: rest).
    simpl. split; [by rewrite E, <- app_assoc|]. split; [|done].
    rewrite !filter_cons_True, F by done. by eexists.
Qed.

Lemma follows_when (flag : bool) sc (m : M unit) s :
  follows sc s (m s) → follows (if flag then sc else []) s (when flag m s).
Proof.
  destruct flag; [done|]. intros _. exists []. simpl.
  by rewrite app_nil_r.
Qed.

Lemma follows_phases f1 f2 f3 s : follows (script f1 f2 f3) s (phases f1 f2 f3 s).
Proof.
  unfold ContainerFactory.phases, script.
  apply follows_bind; [apply follows_when, follows_phase|]. intros _ s1 _.
  apply follows_bind; [apply follows_when, follows_phase|]. intros _ s2 _.
  apply follows_bind; [apply follows_when, follows_phase|]. intros _ s3 _.
  apply follows_register.
Qed.

(** The events of a whole call of the entry point. *)
Lemma call_follows f1 f2 f3 w :
  ∃ delta,
    trace (__call__ f1 f2 f3 w).1 = trace w ++ delta
    ∧ filter toplevel delta
      `prefix_of` script (default true f1) (default true f2) (default true f3)
    ∧ (∀ c, (__call__ f1 f2 f3 w).2 = Returns c →
         filter toplevel delta
         = script (default true f1) (default true f2) (default true f3)).
Proof.
  unfold ContainerFactory.__call__.
  destruct (follows_phases (default true f1) (default true f2)
    (default true f3) (Container_new SINGLETON w)) as (l & E & P & R).
  destruct (phases _ _ _ _) as [s [[]|e|]]; simpl in *;
    exists l; (split; [done|]); (split; [done|]); try done.
  intros c _. by apply (R ()).
Qed.

(** ** A collaborator that raises *)

Lemma app_eq_split {A} (l1 l2 pre post : list A) x :
  l1 ++ l2 = pre ++ x :: post →
  (∃ post1, l1 = pre ++ x :: post1 ∧ post = post1 ++ l2)
  ∨ (∃ pre2, pre = l1 ++ pre2 ∧ l2 = pre2 ++ x :: post).
Proof.
  revert pre. induction l1 as [|a l1 IH]; intros pre H; simpl in *.
  { right. by exists pre. }
  destruct pre as [|b pre]; simpl in *.
  - injection H as -> <-. left. by exists l1.
  - injection H as -> H. destruct (IH pre H) as [(p & -> & ->)|(p & -> & ->)].
    + left. by exists p.
    + right. by exists p.
Qed.

Lemma fail_fast_silent {A} s (r : St * Outcome A) delta :
  trace (world r.1) = trace (world s) ++ delta →
  Forall (λ ev, ∀ m, ev = ECall m → m = Registry_register) delta →
  fail_fast s r.
Proof.
  intros E F. exists delta. split; [done|]. intros pre m post e -> Hm _.
  apply Forall_app in F as [_ F]. apply Forall_cons in F as [F _].
  by specialize (F m eq_refl).
Qed.

Lemma fail_fast_bind {A B} (m : M A) (f : A → M B) s :
  fail_fast s (m s) →
  (∀ a s1, m s = (s1, Returns a) → fail_fast s1 (f a s1)) →
  fail_fast s (bind m f s).
Proof.
  intros (l1 & E1 & H1) H2. unfold bind.
  destruct (m s) as [s1 [a|e|]]; simpl in *;
    [|exists l1; (split; [done|]); intros pre m0 post e0 Hs Hm He;
      by destruct (H1 pre m0 post e0 Hs Hm He) as [-> [= ->]]..].
  destruct (H2 a s1 eq_refl) as (l2 & E2 & H3).
  exists (l1 ++ l2). rewrite E2, E1, app_assoc. split; [done|].
  intros pre m0 post e Hsplit Hm Henv.
  apply app_eq_split in Hsplit as [(p & -> & ->)|(p & -> & ->)].
  - by destruct (H1 pre m0 p e eq_refl Hm Henv).
  - apply (H3 p m0 post e eq_refl Hm). intros i.
    rewrite E1, <- app_assoc. apply Henv.
Qed.

Lemma fail_fast_resolve k s : fail_fast s (Container_resolve classes k s).
Proof.
  destruct (Container_resolve_trace classes k s) as (rest & E & F).
  eapply fail_fast_silent; [exact E|]. constructor; [done|].
  eapply Forall_impl; [exact F|]. by intros [] ? ? [=].
Qed.

Lemma fail_fast_invoke m i s : fail_fast s (invoke m i s).
Proof.
  unfold ContainerFactory.invoke.
  destruct (env m i (trace (world s))) as [e0|] eqn:He; simpl.
  - exists [ECall m]. split; [done|]. intros pre m0 post e Hsplit Hm Henv.
    destruct pre as [|? [|? ?]]; simplify_eq/=.
    specialize (Henv i). rewrite app_nil_r in Henv. split; congruence.
  - exists [ECall m; EReturn m]. split; [simpl; by rewrite <- app_assoc|].
    intros pre m0 post e Hsplit Hm Henv.
    destruct pre as [|? [|? [|? ?]]]; simplify_eq/=.
    specialize (Henv i). rewrite app_nil_r in Henv. congruence.
Qed.

Lemma fail_fast_phase k m s :
  fail_fast s (bind (Container_resolve classes k) (λ i, invoke m i) s).
Proof.
  apply fail_fast_bind; [apply fail_fast_resolve|].
  intros. apply fail_fast_invoke.
Qed.

Lemma fail_fast_register s : fail_fast s (_register s).
Proof.
  unfold ContainerFactory._register.
  apply fail_fast_bind.
  { apply (fail_fast_silent _ _ [EImport "ioc.registries"]).
    - unfold ContainerFactory.import_module. by destruct (imports _ _).
    - repeat constructor; by intros ? [=]. }
  intros _ s0 _.
  apply fail_fast_bind; [apply fail_fast_resolve|]. intros i s1 _.
  eapply (fail_fast_silent _ _
    [ECall Registry_register; ERegister (NameKey "FastAPIFactory") SINGLETON;
     EReturn Registry_register]).
  - simpl. by rewrite <- !app_assoc.
  - repeat constructor; by intros ? [=].
Qed.

Lemma fail_fast_when (flag : bool) (m : M unit) s :
  fail_fast s (m s) → fail_fast s (when flag m s).
Proof.
  destruct flag; [done|]. intros _. apply (fail_fast_silent _ _ []); [|done].
  simpl. by rewrite app_nil_r.
Qed.

Lemma fail_fast_phases f1 f2 f3 s : fail_fast s (phases f1 f2 f3 s).
Proof.
  unfold ContainerFactory.phases.
  apply fail_fast_bind; [apply fail_fast_when, fail_fast_phase|]. intros _ s1 _.
  apply fail_fast_bind; [apply fail_fast_when, fail_fast_phase|]. intros _ s2 _.
  apply fail_fast_bind; [apply fail_fast_when, fail_fast_phase|]. intros _ s3 _.
  apply fail_fast_register.
Qed.

(** ** The container a call returns *)

Lemma call_returns f1 f2 f3 w w' c :
  __call__ f1 f2 f3 w = (w', Returns c) →
  ∃ s1, preserves classes (Container_new SINGLETON w) s1
        ∧ c = box (registered s1) ∧ w' = world (registered s1).
Proof.
  unfold ContainerFactory.__call__.
  destruct (phases _ _ _ _) as [s [[]|e|]] eqn:E; try done.
  intros [= <- <-]. apply phases_returns in E as (s1 & Hp & ->). by exists s1.
Qed.

Lemma call_returns_container f1 f2 f3 w w' c :
  __call__ f1 f2 f3 w = (w', Returns c) →
  cid c = next_addr w
  ∧ autoregister_default_lifetime c = SINGLETON
  ∧ in_progress c = ∅
  ∧ aliased (NameKey "FastAPIFactory") (TypeKey "FastAPIFactory") c.
Proof.
  intros (s1 & [P1 P2 P3 P4 P5 P6 P7 P8 P9 P10] & -> & ->)%call_returns.
  simpl in *. split; [done|]. split; [done|]. split; [done|].
  split; [|split; [|split]]; simpl.
  - by rewrite lookup_insert_eq.
  - done.
  - intros b. rewrite lookup_insert_ne by done. intros Hb.
    destruct (P6 _ _ Hb) as [H|[_ H]]; [|by rewrite H].
    by rewrite lookup_empty in H.
  - intros j Hj. exfalso.
    destruct (P9 (NameKey "FastAPIFactory")) as [[? H]|[b H]]; [by eexists|..].
    + by rewrite lookup_empty in H.
    + destruct (P6 _ _ H) as [H'|[[cls [=]] _]].
      by rewrite lookup_empty in H'.
Qed.

End Bootstrap.

(** * Properties of the container *)



(** C8.  [resolve] always ends: the nesting of factory calls is bounded by
    the number of resolvable keys, so the answer is never [OutOfFuel] and
    any larger fuel gives the same answer.  And when, during a call of
    [resolve] on a key, a factory calls [resolve] on that key again, the
    call raises [CircularDependencyError] for it. *)
Theorem circular_dependency_raises classes k s :
  (Container_resolve classes k s).2 ≠ OutOfFuel
  ∧ (∀ n, S (size (resolvable classes (box s))) ≤ n →
          resolve_fuel classes n 0 k s = Container_resolve classes k s)
  ∧ ∀ d, 0 < d →
      EResolve d k
      ∈ since (trace (world s))
          (trace (world (Container_resolve classes k s).1)) →
      (Container_resolve classes k s).2 = Raises (CircularDependencyError k).
Proof.
  split; [apply Container_resolve_total|]. split.
  { intros n Hn. apply resolve_fuel_enough; [|done].
    apply Container_resolve_total. }
  intros d Hd.
  unfold Container_resolve. simpl.
  assert (Hone : EResolve d k ∈ [EResolve 0 k] → False).
  { intros [=]%list_elem_of_singleton. lia. }
  destruct (find_binding classes k (box s)) as [[b c1]|] eqn:Hf;
    [|simpl; rewrite since_app; intros ?; exfalso; eauto].
  apply find_binding_spec in Hf as (Hb & Hp & Hs & Hsame).
  destruct (cached b k c1) as [i|] eqn:Hc;
    [simpl; rewrite since_app; intros ?; exfalso; eauto|].
  case_decide as Hin;
    [simpl; rewrite since_app; intros ?; exfalso; eauto|].
  set (n := size (resolvable classes (box s))).
  set (s2 := log (EFactory k) (with_box (enter k c1) (log (EResolve 0 k) s))).
  assert (H2 : pending k (box s2)).
  { split; [simpl; set_solver|]. by exists b. }
  pose proof (exec_preserves classes _ (resolve_fuel_preserves classes n 1)
    (factory b) s2) as [_ _ _ _ _ _ _ _ _ [l Hl]].
  pose proof (exec_reentry classes _ k (resolve_fuel_preserves classes n 1)
    (λ k0 s0 d0, resolve_fuel_reentry classes k n 1 k0 s0 d0)
    (factory b) s2 d H2) as He.
  destruct (exec _ _ _) as [s3 o]. simpl in *.
  rewrite Hl, since_app in He.
  assert (Hev : EResolve d k ∈ since (trace (world s)) (trace (world s3)) →
                o = Raises (CircularDependencyError k)).
  { rewrite Hl, <- !app_assoc, since_app. simpl.
    intros [[=]|[[=]|H]%elem_of_cons]%elem_of_cons; [lia|eauto]. }
  destruct o; simpl; intros H; specialize (Hev H); congruence.
Qed.

(** ** A name and the key it stands for give the same instance *)

Lemma aliased_resolve_alias classes a t s s1 i :
  a ≠ t → aliased a t (box s) →
  Container_resolve classes a s = (s1, Returns i) →
  Container_resolve classes t s1 = (log (EResolve 0 t) s1, Returns i).
Proof.
  intros Hat HA Hr.
  pose proof (resolve_fuel_aliased classes a t
    (S (size (resolvable classes (box s)))) Hat 0 a s HA) as HA1.
  fold (Container_resolve classes a s) in HA1. rewrite Hr in HA1.
  destruct HA as (Ha & _). unfold Container_resolve in Hr.
  apply resolve_fuel_returns in Hr as (b & Hb & Hi & Hsame).
  rewrite <- (Hsame _ Ha) in Hi. specialize (Hi eq_refl).
  destruct HA1 as (_ & _ & Ht & Hcoh). simpl in *.
  destruct (Hcoh i Hi) as [Hti [bT HbT]].
  apply (resolve_fuel_cached classes _ 0 t s1 bT i); eauto.
Qed.

Lemma aliased_resolve_target classes a t s s1 i :
  a ≠ t → aliased a t (box s) → in_progress (box s) = ∅ →
  Container_resolve classes t s = (s1, Returns i) →
  (Container_resolve classes a s1).2 = Returns i.
Proof.
  intros Hat HA Hip Hr.
  pose proof (resolve_fuel_aliased classes a t
    (S (size (resolvable classes (box s)))) Hat 0 t s HA) as HA1.
  pose proof (Container_resolve_preserves classes t s) as Hp.
  fold (Container_resolve classes t s) in HA1. rewrite Hr in HA1, Hp.
  unfold Container_resolve in Hr.
  apply resolve_fuel_returns in Hr as (bT & HbT & Hi & _).
  destruct HA1 as (Ha & _ & Ht & Hcoh). simpl in *.
  specialize (Hi (Ht _ HbT)).
  destruct Hp as [_ _ P3 _ _ _ _ _ _ _]. simpl in P3. rewrite Hip in P3.
  unfold Container_resolve.
  assert (Hsz : ∃ n, size (resolvable classes (box s1)) = S n).
  { destruct (size (resolvable classes (box s1))) as [|n] eqn:Hn; [|by exists n].
    apply size_empty_inv in Hn.
    assert (a ∈ resolvable classes (box s1)); [|set_solver].
    unfold resolvable. apply elem_of_union_l, elem_of_dom. eauto. }
  destruct Hsz as [n ->]. simpl. unfold find_binding. rewrite Ha.
  unfold cached at 1. simpl.
  destruct (singletons (box s1) !! a) as [j|] eqn:Hj.
  { destruct (Hcoh j eq_refl) as [Hjt _]. simpl. congruence. }
  rewrite decide_False by (rewrite P3; set_solver).
  rewrite HbT. unfold cached. rewrite (Ht _ HbT). simpl. by rewrite Hi.
Qed.

Lemma resolve_each_aliased classes a t ks :
  a ≠ t →
  ∀ s, aliased a t (box s) → aliased a t (box (resolve_each classes ks s)).
Proof.
  intros Hat. induction ks as [|k ks IH]; intros s HA; simpl; [done|].
  apply IH. by apply resolve_fuel_aliased.
Qed.

(** * Properties of the bootstrap *)

Section Claims.

Variable classes : gmap string Factory.
Variable env : Method → Instance → list Event → option Exn.
Variable imports : string → list Event → option Exn.

#[local] Abbreviation __call__ := (ContainerFactory.__call__ classes env imports).

(** The entry point always ends: the fuel of the model never runs out. *)
Lemma bind_total {A B} (m : M A) (f : A → M B) s :
  (m s).2 ≠ OutOfFuel → (∀ a s1, (f a s1).2 ≠ OutOfFuel) →
  (bind m f s).2 ≠ OutOfFuel.
Proof.
  unfold bind. intros Hm Hf. destruct (m s) as [s1 [a|e|]]; simpl in *; eauto.
Qed.

Lemma phase_total k m s :
  (bind (Container_resolve classes k) (λ i, ContainerFactory.invoke env m i) s).2
  ≠ OutOfFuel.
Proof.
  apply bind_total; [apply Container_resolve_total|]. intros i s1.
  unfold ContainerFactory.invoke. by destruct (env m i _).
Qed.

Lemma when_total (flag : bool) (m : M unit) s :
  (m s).2 ≠ OutOfFuel → (ContainerFactory.when flag m s).2 ≠ OutOfFuel.
Proof. by destruct flag. Qed.

Lemma call_total f1 f2 f3 w : (__call__ f1 f2 f3 w).2 ≠ OutOfFuel.
Proof.
  unfold ContainerFactory.__call__.
  assert (H : (ContainerFactory.phases classes env imports (default true f1)
                 (default true f2) (default true f3)
                 (Container_new SINGLETON w)).2 ≠ OutOfFuel).
  { unfold ContainerFactory.phases.
    apply bind_total; [apply when_total, phase_total|]. intros _ s1.
    apply bind_total; [apply when_total, phase_total|]. intros _ s2.
    apply bind_total; [apply when_total, phase_total|]. intros _ s3.
    unfold ContainerFactory._register.
    apply bind_total.
    { unfold ContainerFactory.import_module. by destruct (imports _ _). }
    intros _ s4.
    apply bind_total; [apply Container_resolve_total|]. by intros i s5. }
  destruct (ContainerFactory.phases _ _ _ _ _ _ _) as [s [[]|e|]]; done.
Qed.

(** C1, as amended.  With the three flags false no configurator and no
    instrumentor is resolved or invoked; the registration phase, which no
    flag controls, still runs: the bootstrap code resolves [Registry] and
    nothing else, calls [Registry.register] and nothing else, and the
    container it returns binds the name ["FastAPIFactory"], so that its
    registry is not empty. *)
Theorem bootstrap_all_flags_false w :
  ∃ delta,
    trace (__call__ (Some false) (Some false) (Some false) w).1
    = trace w ++ delta
    ∧ (∀ m, ECall m ∈ delta → m = Registry_register)
    ∧ (∀ k, EResolve 0 k ∈ delta → k = TypeKey "Registry")
    ∧ ∀ c, (__call__ (Some false) (Some false) (Some false) w).2 = Returns c →
        filter toplevel delta = script_register
        ∧ registry c !! NameKey "FastAPIFactory"
          = Some (alias_of (TypeKey "FastAPIFactory")).
Proof.
  destruct (call_follows classes env imports (Some false) (Some false) (Some false) w)
    as (delta & E & [rest P] & R).
  exists delta. split; [done|].
  assert (Hin : ∀ e, toplevel e → e ∈ delta → e ∈ script_register).
  { intros e Ht He.
    assert (P' : script_register = filter toplevel delta ++ rest) by exact P.
    rewrite P'. apply elem_of_app. left. by apply list_elem_of_filter. }
  split; [|split].
  - intros m Hm. apply Hin in Hm; [|done].
    unfold script_register in Hm. set_solver.
  - intros k Hk. apply Hin in Hk; [|done].
    unfold script_register in Hk. set_solver.
  - intros c Hc. split; [by apply (R c)|].
    destruct (__call__ _ _ _ w) as [w' o] eqn:Hcall. simpl in Hc. subst o.
    by apply call_returns_container in Hcall as (_ & _ & _ & Ha & _).
Qed.

(** C2.  When the framework flag is true (or left out), every action of
    the registration phase (the deferred import of [ioc.registries], the
    resolution of [Registry], the call of its [register], the registration
    it makes, its return) comes after [DjangoConfigurator.configure] was
    called and has returned. *)
Theorem configure_django_precedes_registration f1 f2 f3 w pre ev post :
  default true f1 = true →
  trace (__call__ f1 f2 f3 w).1 = trace w ++ pre ++ ev :: post →
  ev ∈ script_register →
  ECall (DjangoConfigurator_configure "configs.django") ∈ pre
  ∧ EReturn (DjangoConfigurator_configure "configs.django") ∈ pre.
Proof.
  intros Hf Htr Hev.
  destruct (call_follows classes env imports f1 f2 f3 w) as (delta & E & [rest P] & _).
  rewrite E in Htr. apply app_inv_head in Htr. subst delta.
  rewrite Hf in P. unfold script, script_phase in P.
  rewrite filter_app, filter_cons_True in P
    by (unfold script_register in Hev; set_solver).
  assert (Hsub : ∀ e, e ∈ filter toplevel pre → e ∈ pre).
  { intros e He. by apply list_elem_of_filter in He as [_ ?]. }
  destruct (filter toplevel pre) as [|x1 [|x2 [|x3 l]]]; simpl in P;
    simplify_eq/=; unfold script_register in Hev; set_solver.
Qed.

(** C3, as amended.  When a method of an external collaborator, called in
    whatever phase, raises, nothing happens after that call (the phases
    that remain are not run) and the entry point raises the exception of
    the collaborator itself; the sources wrap it in nothing. *)
Theorem collaborator_error_propagates f1 f2 f3 w pre m post e :
  trace (__call__ f1 f2 f3 w).1 = trace w ++ pre ++ ECall m :: post →
  m ≠ Registry_register →
  (∀ i, env m i (trace w ++ pre) = Some e) →
  post = [] ∧ (__call__ f1 f2 f3 w).2 = Raises e.
Proof.
  unfold ContainerFactory.__call__. intros Htr Hm Henv.
  destruct (fail_fast_phases classes env imports (default true f1) (default true f2)
    (default true f3) (Container_new SINGLETON w)) as (delta & E & H).
  destruct (ContainerFactory.phases _ _ _ _ _ _ _) as [s o].
  destruct o as [[]|e'|]; simpl in *; rewrite E in Htr;
    apply app_inv_head in Htr;
    by destruct (H pre m post e Htr Hm Henv) as [-> [= ->]].
Qed.

(** C4.  For every value of the three flags, the actions of the bootstrap
    code are, in order, those of the enabled phases followed by those of
    the registration phase: they begin the script of the flags, and are
    the whole script when the call returns.  A disabled phase contributes
    no action of its own and takes none away from the others. *)
Theorem bootstrap_phases_follow_flags (f1 f2 f3 : bool) w :
  (∃ delta,
     trace (__call__ (Some f1) (Some f2) (Some f3) w).1 = trace w ++ delta
     ∧ filter toplevel delta `prefix_of` script f1 f2 f3
     ∧ ∀ c, (__call__ (Some f1) (Some f2) (Some f3) w).2 = Returns c →
         filter toplevel delta = script f1 f2 f3)
  ∧ script true false true
    = [EResolve 0 (TypeKey "DjangoConfigurator");
       ECall (DjangoConfigurator_configure "configs.django");
       EReturn (DjangoConfigurator_configure "configs.django");
       EResolve 0 (TypeKey "OpenTelemetryInstrumentor");
       ECall OpenTelemetryInstrumentor_instrument_libraries;
       EReturn OpenTelemetryInstrumentor_instrument_libraries;
       EImport "ioc.registries";
       EResolve 0 (TypeKey "Registry");
       ECall Registry_register;
       ERegister (NameKey "FastAPIFactory") SINGLETON;
       EReturn Registry_register].
Proof.
  split; [|done].
  apply (call_follows classes env imports (Some f1) (Some f2) (Some f3) w).
Qed.

(** C5.  The entry point takes the three flags, each [True] when left
    out, and ends by returning a container or raising; when it returns, it
    returns the container it built at its first line (same identity,
    default lifetime SINGLETON, nothing under construction) in the state
    the four phases left it in: every enabled phase was carried out on it,
    it is the very state in which [Registry.register] returned, and it
    holds the registration of ["FastAPIFactory"]. *)
Theorem bootstrap_entry_point f1 f2 f3 w :
  __call__ f1 f2 f3 w
  = __call__ (Some (default true f1)) (Some (default true f2))
      (Some (default true f3)) w
  ∧ __call__ None None None w = __call__ (Some true) (Some true) (Some true) w
  ∧ (__call__ f1 f2 f3 w).2 ≠ OutOfFuel
  ∧ ∀ w' c, __call__ f1 f2 f3 w = (w', Returns c) →
      cid c = next_addr w
      ∧ autoregister_default_lifetime c = SINGLETON
      ∧ in_progress c = ∅
      ∧ filter toplevel (since (trace w) (trace w'))
        = script (default true f1) (default true f2) (default true f3)
      ∧ ContainerFactory.phases classes env imports
          (default true f1) (default true f2) (default true f3)
          (Container_new SINGLETON w)
        = ({| box := c; world := w' |}, Returns tt)
      ∧ registry c !! NameKey "FastAPIFactory"
        = Some (alias_of (TypeKey "FastAPIFactory"))
      ∧ registry c ≠ ∅.
Proof.
  split; [done|]. split; [done|]. split; [apply call_total|].
  intros w' c Hcall.
  destruct (call_returns_container classes env imports _ _ _ _ _ _ Hcall)
    as (H1 & H2 & H3 & H4 & _).
  destruct (call_follows classes env imports f1 f2 f3 w) as (delta & E & _ & R).
  rewrite Hcall in E, R. simpl in *. rewrite E, since_app.
  do 4 (split; [eauto|]). split; [|split; [done|]].
  - unfold ContainerFactory.__call__ in Hcall.
    destruct (ContainerFactory.phases _ _ _ _ _ _ _) as [[c0 w0] [[]|e|]];
      try done.
    by injection Hcall as <- <-.
  - intros He. by rewrite He, lookup_empty in H4.
Qed.

(** C9.  Whatever the flags, the registration phase runs last, and the
    container the entry point returns binds the name ["FastAPIFactory"]
    with lifetime SINGLETON. *)
Theorem bootstrap_always_registers f1 f2 f3 w w' c :
  __call__ f1 f2 f3 w = (w', Returns c) →
  (∃ b, registry c !! NameKey "FastAPIFactory" = Some b
        ∧ lifetime b = SINGLETON)
  ∧ script_register
    `suffix_of` filter toplevel (since (trace w) (trace w')).
Proof.
  intros Hcall.
  destruct (call_returns_container classes env imports _ _ _ _ _ _ Hcall)
    as (_ & _ & _ & Ha & _).
  destruct (call_follows classes env imports f1 f2 f3 w) as (delta & E & _ & R).
  rewrite Hcall in E, R. simpl in *. rewrite E, since_app, (R c eq_refl).
  split; [by eexists|]. unfold script. rewrite !app_assoc. by eexists.
Qed.

(** C10.  In the container the entry point returns, the name
    ["FastAPIFactory"] is bound to a factory that resolves the class
    [FastAPIFactory] from that container and hands the result back; and,
    whatever was resolved in between, resolving the name and then the
    class, or the class and then the name, gives the same instance. *)
Theorem fastapi_factory_name_is_alias f1 f2 f3 w w' c :
  __call__ f1 f2 f3 w = (w', Returns c) →
  registry c !! NameKey "FastAPIFactory"
  = Some {| factory := FResolve (TypeKey "FastAPIFactory") FReturn;
            lifetime := SINGLETON |}
  ∧ ∀ ks s1 i,
      let s := resolve_each classes ks {| box := c; world := w' |} in
      (Container_resolve classes (NameKey "FastAPIFactory") s
       = (s1, Returns i) →
       (Container_resolve classes (TypeKey "FastAPIFactory") s1).2
       = Returns i)
      ∧ (Container_resolve classes (TypeKey "FastAPIFactory") s
         = (s1, Returns i) →
         (Container_resolve classes (NameKey "FastAPIFactory") s1).2
         = Returns i).
Proof.
  intros Hcall.
  destruct (call_returns_container classes env imports _ _ _ _ _ _ Hcall)
    as (_ & _ & Hip & HA).
  split; [by destruct HA|]. intros ks s1 i s.
  assert (HAs : aliased (NameKey "FastAPIFactory") (TypeKey "FastAPIFactory")
                  (box s)) by (by apply resolve_each_aliased).
  assert (Hne : NameKey "FastAPIFactory" ≠ TypeKey "FastAPIFactory") by done.
  split; intros Hr.
  - by rewrite (aliased_resolve_alias classes _ _ _ _ _ Hne HAs Hr).
  - eapply aliased_resolve_target; [exact Hne | exact HAs | | exact Hr].
    destruct (resolve_each_preserves classes ks {| box := c; world := w' |})
      as [_ _ P3 _ _ _ _ _ _ _]. unfold s. by rewrite P3.
Qed.

End Claims.

(** * The properties at work on concrete processes *)

Lemma bootstrap_all_flags_false_witness :
  ∃ c,
    (ContainerFactory.__call__ demo_classes quiet loaded
       (Some false) (Some false) (Some false) boot).2 = Returns c
    ∧ registry c !! NameKey "FastAPIFactory"
      = Some (alias_of (TypeKey "FastAPIFactory")).
Proof.
  destruct (bootstrap_all_flags_false demo_classes quiet loaded boot)
    as (delta & _ & _ & _ & H).
  destruct (ContainerFactory.__call__ demo_classes quiet loaded
              (Some false) (Some false) (Some false) boot).2
    as [c|e|] eqn:E; [|vm_compute in E; discriminate E..].
  exists c. split; [reflexivity|]. exact (proj2 (H c eq_refl)).
Defined.

(** The claim C1 as the specification words it fails: with the three flags
    false the registration phase runs, and the registry of the container
    that comes back is not empty. *)
Lemma bootstrap_all_flags_false_registers :
  trace (ContainerFactory.__call__ demo_classes quiet loaded
           (Some false) (Some false) (Some false) boot).1
  = [EImport "ioc.registries";
     EResolve 0 (TypeKey "Registry"); EFactory (TypeKey "Registry");
     ECall Registry_register;
     ERegister (NameKey "FastAPIFactory") SINGLETON;
     EReturn Registry_register]
  ∧ ∃ c,
      (ContainerFactory.__call__ demo_classes quiet loaded
         (Some false) (Some false) (Some false) boot).2 = Returns c
      ∧ registry c ≠ ∅.
Proof.
  split; [vm_compute; reflexivity|].
  eexists. split; [vm_compute; reflexivity|].
  intros H. apply (f_equal (λ r, r !! NameKey "FastAPIFactory")) in H.
  vm_compute in H. discriminate H.
Qed.

Lemma configure_django_precedes_registration_witness :
  ECall (DjangoConfigurator_configure "configs.django")
  ∈ [EResolve 0 (TypeKey "DjangoConfigurator");
     EFactory (TypeKey "DjangoConfigurator");
     ECall (DjangoConfigurator_configure "configs.django");
     EReturn (DjangoConfigurator_configure "configs.django");
     EImport "ioc.registries";
     EResolve 0 (TypeKey "Registry"); EFactory (TypeKey "Registry")]
  ∧ EReturn (DjangoConfigurator_configure "configs.django")
    ∈ [EResolve 0 (TypeKey "DjangoConfigurator");
       EFactory (TypeKey "DjangoConfigurator");
       ECall (DjangoConfigurator_configure "configs.django");
       EReturn (DjangoConfigurator_configure "configs.django");
       EImport "ioc.registries";
       EResolve 0 (TypeKey "Registry"); EFactory (TypeKey "Registry")].
Proof.
  apply (configure_django_precedes_registration demo_classes quiet loaded
           None (Some false) (Some false) boot _ (ECall Registry_register)
           [ERegister (NameKey "FastAPIFactory") SINGLETON;
            EReturn Registry_register]).
  - reflexivity.
  - vm_compute. reflexivity.
  - apply (bool_decide_unpack _). vm_compute. exact I.
Defined.

Lemma collaborator_error_propagates_witness :
  @nil Event = []
  ∧ (ContainerFactory.__call__ demo_classes misconfigured loaded None None None boot).2
    = Raises (ExternalError "ImproperlyConfigured").
Proof.
  apply (collaborator_error_propagates demo_classes misconfigured loaded
           None None None boot
           [EResolve 0 (TypeKey "DjangoConfigurator");
            EFactory (TypeKey "DjangoConfigurator")]
           (DjangoConfigurator_configure "configs.django") []
           (ExternalError "ImproperlyConfigured")).
  - vm_compute. reflexivity.
  - discriminate.
  - intros i. reflexivity.
Defined.

(** The claim C3 as the specification words it fails: the exception of
    the configurator reaches the caller as it is, in no
    [BootstrapPhaseError]; the phases after the first are not run. *)
Lemma collaborator_error_not_wrapped :
  (ContainerFactory.__call__ demo_classes misconfigured loaded None None None boot)
  = ({| trace := [EResolve 0 (TypeKey "DjangoConfigurator");
                  EFactory (TypeKey "DjangoConfigurator");
                  ECall (DjangoConfigurator_configure "configs.django")];
        next_addr := 2 |},
     Raises (ExternalError "ImproperlyConfigured"))
  ∧ ∀ cause,
      (ContainerFactory.__call__ demo_classes misconfigured loaded
         None None None boot).2
      ≠ Raises (BootstrapPhaseError cause).
Proof.
  split; [vm_compute; reflexivity|].
  intros cause H. vm_compute in H. discriminate H.
Qed.

Lemma bootstrap_phases_follow_flags_witness :
  ∃ c,
    (ContainerFactory.__call__ demo_classes quiet loaded
       (Some true) (Some false) (Some true) boot).2 = Returns c
    ∧ filter toplevel
        (trace (ContainerFactory.__call__ demo_classes quiet loaded
                  (Some true) (Some false) (Some true) boot).1)
      = script true false true.
Proof.
  destruct (bootstrap_phases_follow_flags demo_classes quiet loaded
              true false true boot) as [(delta & E & _ & R) _].
  destruct (ContainerFactory.__call__ demo_classes quiet loaded
              (Some true) (Some false) (Some true) boot)
    as [w' [c|e|]] eqn:Hc; [|vm_compute in Hc; discriminate Hc..].
  exists c. split; [reflexivity|]. simpl in *. rewrite E.
  exact (R c eq_refl).
Defined.

Lemma bootstrap_entry_point_witness :
  ∃ w' c,
    ContainerFactory.__call__ demo_classes quiet loaded None None None boot
    = (w', Returns c)
    ∧ cid c = 0
    ∧ autoregister_default_lifetime c = SINGLETON
    ∧ in_progress c = ∅
    ∧ filter toplevel (since [] (trace w')) = script true true true
    ∧ ContainerFactory.phases demo_classes quiet loaded true true true
        (Container_new SINGLETON boot)
      = ({| box := c; world := w' |}, Returns tt)
    ∧ registry c !! NameKey "FastAPIFactory"
      = Some (alias_of (TypeKey "FastAPIFactory"))
    ∧ registry c ≠ ∅.
Proof.
  destruct (ContainerFactory.__call__ demo_classes quiet loaded
              None None None boot)
    as [w' [c|e|]] eqn:Hc; [|vm_compute in Hc; discriminate Hc..].
  exists w', c. split; [reflexivity|].
  exact (proj2 (proj2 (proj2
    (bootstrap_entry_point demo_classes quiet loaded None None None boot)))
    w' c Hc).
Defined.

Lemma bootstrap_always_registers_witness :
  ∃ w' c,
    ContainerFactory.__call__ demo_classes quiet loaded
      (Some false) None (Some false) boot = (w', Returns c)
    ∧ (∃ b, registry c !! NameKey "FastAPIFactory" = Some b
            ∧ lifetime b = SINGLETON)
    ∧ script_register `suffix_of` filter toplevel (since [] (trace w')).
Proof.
  destruct (ContainerFactory.__call__ demo_classes quiet loaded
              (Some false) None (Some false) boot)
    as [w' [c|e|]] eqn:Hc; [|vm_compute in Hc; discriminate Hc..].
  exists w', c. split; [reflexivity|].
  exact (bootstrap_always_registers demo_classes quiet loaded _ _ _ boot w' c Hc).
Defined.



(** A factory that always raises runs at every call. *)
Example raising_factory_runs_each_time :
  let s := resolve_each ∅ [NameKey "Broken"; NameKey "Broken"; NameKey "Broken"]
             with_broken in
  filter (λ e, e = EFactory (NameKey "Broken")) (trace (world s))
  = [EFactory (NameKey "Broken"); EFactory (NameKey "Broken");
     EFactory (NameKey "Broken")]
  ∧ singletons (box s) !! NameKey "Broken" = None.
Proof. vm_compute. done. Qed.

Example svc_factory_ran_once :
  filter (λ e, e = EFactory (NameKey "Svc"))
    (trace (world
       (resolve_each ∅ [NameKey "Svc"; NameKey "Svc"; NameKey "Svc"] with_svc)))
  = [EFactory (NameKey "Svc")].
Proof. vm_compute. reflexivity. Qed.



Lemma circular_dependency_raises_witness :
  (Container_resolve ∅ (NameKey "self") entangled).2 ≠ OutOfFuel
  ∧ (Container_resolve ∅ (NameKey "self") entangled).2
    = Raises (CircularDependencyError (NameKey "self")).
Proof.
  destruct (circular_dependency_raises ∅ (NameKey "self") entangled)
    as (H1 & _ & H2).
  split; [exact H1|]. apply (H2 1).
  - lia.
  - apply (bool_decide_unpack _). vm_compute. exact I.
Defined.

(** A cycle through a second key: ["a"] needs ["b"], which needs ["a"]. *)
Example transitive_cycle_raises :
  let r := Container_resolve ∅ (NameKey "a") entangled in
  r.2 = Raises (CircularDependencyError (NameKey "a"))
  ∧ since (trace (world entangled)) (trace (world r.1))
    = [EResolve 0 (NameKey "a"); EFactory (NameKey "a");
       EResolve 1 (NameKey "b"); EFactory (NameKey "b");
       EResolve 2 (NameKey "a")]
  ∧ in_progress (box r.1) = ∅.
Proof. vm_compute. done. Qed.

Lemma fastapi_factory_name_is_alias_witness :
  ∃ w' c s1 i,
    ContainerFactory.__call__ demo_classes quiet loaded None None None boot
    = (w', Returns c)
    ∧ Container_resolve demo_classes (NameKey "FastAPIFactory")
        {| box := c; world := w' |} = (s1, Returns i)
    ∧ (Container_resolve demo_classes (TypeKey "FastAPIFactory") s1).2
      = Returns i.
Proof.
  destruct (ContainerFactory.__call__ demo_classes quiet loaded None None None boot)
    as [w' [c|e|]] eqn:Hc; [|vm_compute in Hc; discriminate Hc..].
  destruct (fastapi_factory_name_is_alias demo_classes quiet loaded
              None None None boot w' c Hc) as [_ H].
  destruct (Container_resolve demo_classes (NameKey "FastAPIFactory")
              {| box := c; world := w' |}) as [s1 [i|e|]] eqn:Hr.
  - exists w', c, s1, i. split; [reflexivity|]. split; [exact Hr|].
    exact (proj1 (H [] s1 i) Hr).
  - vm_compute in Hc. injection Hc as <- <-. vm_compute in Hr. discriminate Hr.
  - vm_compute in Hc. injection Hc as <- <-. vm_compute in Hr. discriminate Hr.
Defined.

Example alias_and_class_agree :
  let s := resolve_each demo_classes
             [TypeKey "FastAPIFactory"; NameKey "FastAPIFactory";
              TypeKey "FastAPIFactory"; NameKey "FastAPIFactory"]
             match ContainerFactory.__call__ demo_classes quiet loaded
                     None None None boot with
             | (w', Returns c) => {| box := c; world := w' |}
             | (w', _) => Container_new SINGLETON w'
             end in
  singletons (box s) !! NameKey "FastAPIFactory"
  = Some {| class_of := "FastAPIFactory"; addr := 5 |}
  ∧ singletons (box s) !! TypeKey "FastAPIFactory"
    = Some {| class_of := "FastAPIFactory"; addr := 5 |}
  ∧ filter (λ e, e = EFactory (TypeKey "FastAPIFactory")) (trace (world s))
    = [EFactory (TypeKey "FastAPIFactory")].
Proof. vm_compute. done. Qed.

(** The default bootstrap, with collaborators that all answer. *)
Example default_bootstrap_trace :
  trace (ContainerFactory.__call__ demo_classes quiet loaded None None None boot).1
  = [EResolve 0 (TypeKey "DjangoConfigurator");
     EFactory (TypeKey "DjangoConfigurator");
     ECall (DjangoConfigurator_configure "configs.django");
     EReturn (DjangoConfigurator_configure "configs.django");
     EResolve 0 (TypeKey "LoggingConfigurator");
     EFactory (TypeKey "LoggingConfigurator");
     ECall LoggingConfigurator_configure;
     EReturn LoggingConfigurator_configure;
     EResolve 0 (TypeKey "OpenTelemetryInstrumentor");
     EFactory (TypeKey "OpenTelemetryInstrumentor");
     ECall OpenTelemetryInstrumentor_instrument_libraries;
     EReturn OpenTelemetryInstrumentor_instrument_libraries;
     EImport "ioc.registries";
     EResolve 0 (TypeKey "Registry"); EFactory (TypeKey "Registry");
     ECall Registry_register;
     ERegister (NameKey "FastAPIFactory") SINGLETON;
     EReturn Registry_register].
Proof. vm_compute. reflexivity. Qed.

(** * More on the two source files *)

(** ** Lists of events *)

Lemma prefix_skip {A} (l1 l2 sc1 sc2 : list A) ev :
  l1 ++ ev :: l2 `prefix_of` sc1 ++ sc2 → ev ∉ sc1 →
  ∀ x, x ∈ sc1 → x ∈ l1.
Proof.
  revert l1. induction sc1 as [|a sc1 IH]; intros l1 [k Hk] Hev x Hx.
  - by apply elem_of_nil in Hx.
  - destruct l1 as [|b l1]; simpl in Hk.
    + injection Hk as -> _. exfalso. apply Hev. left.
    + injection Hk as -> Hk. apply elem_of_cons in Hx as [->|Hx]; [left|].
      right. apply (IH l1); [by exists k | set_solver | done].
Qed.

Lemma filter_eq_toplevel (x : Event) (delta : list Event) :
  toplevel x →
  filter (λ e, e = x) (filter toplevel delta) = filter (λ e, e = x) delta.
Proof.
  intros Hx. induction delta as [|a delta IH]; [done|].
  rewrite (filter_cons toplevel). destruct (decide (toplevel a)) as [Ha|Ha].
  - rewrite !(filter_cons (λ e, e = x)). by rewrite IH.
  - rewrite (filter_cons_False (λ e, e = x) a delta) by congruence. done.
Qed.

Lemma NoDup_count {A} `{EqDecision A} (x : A) l :
  NoDup l → length (filter (λ e, e = x) l) ≤ 1.
Proof.
  induction 1 as [|a l Ha _ IH]; [simpl; lia|].
  rewrite filter_cons. case_decide as Hd; [|done]. subst a.
  rewrite (filter_none (λ e, e = x) l); [simpl; lia|].
  apply Forall_forall. intros e He ->. done.
Qed.

Lemma script_NoDup f1 f2 f3 : NoDup (script f1 f2 f3).
Proof.
  destruct f1, f2, f3; apply (bool_decide_unpack _); vm_compute; exact I.
Qed.

Section Extras.

Variable classes : gmap string Factory.
Variable env : Method → Instance → list Event → option Exn.
Variable imports : string → list Event → option Exn.

#[local] Abbreviation __call__ := (ContainerFactory.__call__ classes env imports).

Lemma call_since f1 f2 f3 w :
  filter toplevel (since (trace w) (trace (__call__ f1 f2 f3 w).1))
  `prefix_of` script (default true f1) (default true f2) (default true f3).
Proof.
  destruct (call_follows classes env imports f1 f2 f3 w) as (delta & E & P & _).
  by rewrite E, since_app.
Qed.

(** X1.  In one call of the entry point each collaborator method is called
    at most once; a configurator or the instrumentor is called only when
    its flag is on, and Django only with the settings module
    ["configs.django"]. *)
Theorem collaborator_called_at_most_once f1 f2 f3 w m :
  length (filter (λ e, e = ECall m)
            (since (trace w) (trace (__call__ f1 f2 f3 w).1))) ≤ 1
  ∧ (ECall m ∈ since (trace w) (trace (__call__ f1 f2 f3 w).1) →
     m = Registry_register
     ∨ (m = DjangoConfigurator_configure "configs.django"
        ∧ default true f1 = true)
     ∨ (m = LoggingConfigurator_configure ∧ default true f2 = true)
     ∨ (m = OpenTelemetryInstrumentor_instrument_libraries
        ∧ default true f3 = true)).
Proof.
  pose proof (call_since f1 f2 f3 w) as [rest P].
  split.
  - rewrite <- (filter_eq_toplevel (ECall m)) by done.
    apply NoDup_count.
    pose proof (script_NoDup (default true f1) (default true f2)
                  (default true f3)) as Hnd.
    rewrite P in Hnd. by apply NoDup_app in Hnd as [? _].
  - intros Hin.
    assert (Hs : ECall m ∈ script (default true f1) (default true f2)
                   (default true f3)).
    { rewrite P. apply elem_of_app. left. by apply list_elem_of_filter. }
    clear P Hin. unfold script, script_phase, script_register in Hs.
    destruct (default true f1), (default true f2), (default true f3);
      set_solver.
Qed.

Lemma ordered_by_script sc1 sc2 pre ev post x :
  filter toplevel (pre ++ ev :: post) `prefix_of` sc1 ++ sc2 →
  toplevel ev → ev ∉ sc1 → x ∈ sc1 → x ∈ pre.
Proof.
  intros P Hev Hn Hx. rewrite filter_app, filter_cons_True in P by done.
  pose proof (prefix_skip _ _ _ _ _ P Hn x Hx) as Hin.
  by apply list_elem_of_filter in Hin as [_ ?].
Qed.

(** X2.  The phases run in the order of the source: when a phase is on,
    its collaborator method has returned before any action of a later
    phase; in particular the deferred import of [ioc.registries] waits for
    the logging configurator and the instrumentor as well. *)
Theorem phases_run_in_source_order f1 f2 f3 w pre ev post :
  trace (__call__ f1 f2 f3 w).1 = trace w ++ pre ++ ev :: post →
  (default true f1 = true →
   ev ∈ script_phase (TypeKey "LoggingConfigurator")
          LoggingConfigurator_configure
        ++ script_phase (TypeKey "OpenTelemetryInstrumentor")
             OpenTelemetryInstrumentor_instrument_libraries →
   EReturn (DjangoConfigurator_configure "configs.django") ∈ pre)
  ∧ (default true f2 = true →
     ev ∈ script_phase (TypeKey "OpenTelemetryInstrumentor")
            OpenTelemetryInstrumentor_instrument_libraries
          ++ script_register →
     EReturn LoggingConfigurator_configure ∈ pre)
  ∧ (default true f3 = true →
     ev ∈ script_register →
     EReturn OpenTelemetryInstrumentor_instrument_libraries ∈ pre).
Proof.
  intros Htr. pose proof (call_since f1 f2 f3 w) as P.
  rewrite Htr, since_app in P. unfold script in P.
  split; [|split].
  - intros Hf Hev. rewrite Hf in P. unfold script_phase, script_register in *.
    eapply (ordered_by_script _ _ pre ev post); [exact P | | |].
    + set_solver.
    + set_solver.
    + set_solver.
  - intros Hf Hev. rewrite Hf, app_assoc in P.
    unfold script_phase, script_register in *.
    eapply (ordered_by_script _ _ pre ev post); [exact P | | |].
    + set_solver.
    + destruct (default true f1); set_solver.
    + destruct (default true f1); set_solver.
  - intros Hf Hev. rewrite Hf, !app_assoc in P.
    unfold script_phase, script_register in *.
    eapply (ordered_by_script _ _ pre ev post); [exact P | | |].
    + set_solver.
    + destruct (default true f1), (default true f2); set_solver.
    + destruct (default true f1), (default true f2); set_solver.
Qed.

(** ** The factory of the name is not called during the bootstrap *)

Lemma unbound_preserved name s s' :
  preserves classes s s' →
  registry (box s) !! NameKey name = None →
  registry (box s') !! NameKey name = None.
Proof.
  intros [_ _ _ _ _ P6 _ _ _ _] Hn.
  destruct (registry (box s') !! NameKey name) as [b|] eqn:Hb; [|done].
  destruct (P6 _ _ Hb) as [H|[[cls [=]] _]]. congruence.
Qed.

Lemma resolve_fuel_unbound name n :
  ∀ d k s,
    registry (box s) !! NameKey name = None →
    ∃ delta,
      trace (world (resolve_fuel classes n d k s).1) = trace (world s) ++ delta
      ∧ Forall (λ e, e ≠ EFactory (NameKey name)) delta.
Proof.
  induction n as [|n IH]; intros d k s Hn; simpl.
  { exists []. by rewrite app_nil_r. }
  destruct (find_binding classes k (box s)) as [[b c1]|] eqn:Hf;
    [|exists [EResolve d k]; split; [done|by repeat constructor]].
  apply find_binding_spec in Hf as (Hb & Hp & _ & _).
  specialize (Hp (log (EResolve d k) s) eq_refl).
  pose proof (unbound_preserved name _ _ Hp Hn) as Hn1. simpl in Hn1.
  destruct (cached b k c1) as [i|];
    [exists [EResolve d k]; split; [done|by repeat constructor]|].
  case_decide as Hin;
    [exists [EResolve d k]; split; [done|by repeat constructor]|].
  assert (Hne : k ≠ NameKey name) by congruence.
  set (s2 := log (EFactory k) (with_box (enter k c1) (log (EResolve d k) s))).
  assert (Hrec : ∀ k0 s0, registry (box s0) !! NameKey name = None →
    registry (box (resolve_fuel classes n (S d) k0 s0).1) !! NameKey name = None
    ∧ ∃ delta,
        trace (world (resolve_fuel classes n (S d) k0 s0).1)
        = trace (world s0) ++ delta
        ∧ Forall (λ e, e ≠ EFactory (NameKey name)) delta).
  { intros k0 s0 H0. split; [|by apply IH].
    eapply unbound_preserved; [apply resolve_fuel_preserves | done]. }
  destruct (exec_events _
    (λ s0, registry (box s0) !! NameKey name = None) _ Hrec (factory b) s2 Hn1)
    as (l & E & F).
  destruct (exec _ _ _) as [s3 o]. simpl in E.
  exists ([EResolve d k; EFactory k] ++ l). split.
  - destruct o; simpl; rewrite E; unfold s2; simpl; by rewrite <- !app_assoc.
  - apply Forall_app. split; [|done]. repeat constructor; congruence.
Qed.

Lemma never_builds_bind name {A B} (m : M A) (f : A → M B) :
  never_builds name m → (∀ a, never_builds name (f a)) →
  never_builds name (bind m f).
Proof.
  intros Hm Hf s Hs. unfold bind. destruct (Hm s Hs) as (H1 & l1 & E1 & F1).
  destruct (m s) as [s1 [a|e|]]; simpl in *; [|by eauto..].
  destruct (Hf a s1 H1) as (H2 & l2 & E2 & F2). split; [done|].
  exists (l1 ++ l2). rewrite E2, E1, app_assoc. split; [done|].
  by apply Forall_app.
Qed.

Lemma builds_not_bind name {A B} (m : M A) (f : A → M B) :
  never_builds name m → (∀ a, builds_not name (f a)) →
  builds_not name (bind m f).
Proof.
  intros Hm Hf s Hs. unfold bind. destruct (Hm s Hs) as (H1 & l1 & E1 & F1).
  destruct (m s) as [s1 [a|e|]]; simpl in *; [|by eauto..].
  destruct (Hf a s1 H1) as (l2 & E2 & F2).
  exists (l1 ++ l2). rewrite E2, E1, app_assoc. split; [done|].
  by apply Forall_app.
Qed.

Lemma never_builds_resolve name k :
  never_builds name (Container_resolve classes k).
Proof.
  intros s Hs. split; [|by apply resolve_fuel_unbound].
  eapply unbound_preserved; [apply Container_resolve_preserves | done].
Qed.

Lemma never_builds_phase name k m :
  never_builds name
    (bind (Container_resolve classes k) (λ i, ContainerFactory.invoke env m i)).
Proof.
  apply never_builds_bind; [apply never_builds_resolve|].
  intros i s Hs. unfold ContainerFactory.invoke.
  destruct (env m i (trace (world s))); simpl; (split; [done|]).
  - exists [ECall m]. split; [done|]. by repeat constructor.
  - exists [ECall m; EReturn m]. split; [by rewrite <- app_assoc|].
    by repeat constructor.
Qed.

Lemma never_builds_when name (flag : bool) (m : M unit) :
  never_builds name m → never_builds name (ContainerFactory.when flag m).
Proof.
  destruct flag; [done|]. intros _ s Hs. split; [done|].
  exists []. simpl. by rewrite app_nil_r.
Qed.

Lemma builds_not_register name :
  builds_not name (ContainerFactory._register classes imports).
Proof.
  unfold ContainerFactory._register. apply builds_not_bind.
  { intros s Hs. unfold ContainerFactory.import_module.
    destruct (imports _ _); (split; [done|]);
      exists [EImport "ioc.registries"]; (split; [done|]);
      by repeat constructor. }
  intros _. apply builds_not_bind; [apply never_builds_resolve|].
  intros i s Hs.
  exists [ECall Registry_register;
          ERegister (NameKey "FastAPIFactory") SINGLETON;
          EReturn Registry_register].
  split; [simpl; by rewrite <- !app_assoc|]. by repeat constructor.
Qed.

Lemma builds_not_phases name f1 f2 f3 :
  builds_not name (ContainerFactory.phases classes env imports f1 f2 f3).
Proof.
  unfold ContainerFactory.phases.
  apply builds_not_bind; [apply never_builds_when, never_builds_phase|].
  intros _.
  apply builds_not_bind; [apply never_builds_when, never_builds_phase|].
  intros _.
  apply builds_not_bind; [apply never_builds_when, never_builds_phase|].
  intros _. apply builds_not_register.
Qed.

(** X3.  The registration is lazy: the bootstrap binds the name
    ["FastAPIFactory"] but never calls the factory it binds, whatever the
    flags and whatever the collaborators need; in the container that comes
    back the name has no instance yet. *)
Theorem bootstrap_never_builds_fastapi_factory f1 f2 f3 w :
  (EFactory (NameKey "FastAPIFactory")
   ∉ since (trace w) (trace (__call__ f1 f2 f3 w).1))
  ∧ ∀ w' c, __call__ f1 f2 f3 w = (w', Returns c) →
      singletons c !! NameKey "FastAPIFactory" = None.
Proof.
  split.
  - unfold ContainerFactory.__call__.
    destruct (builds_not_phases "FastAPIFactory" (default true f1)
      (default true f2) (default true f3) (Container_new SINGLETON w))
      as (delta & E & F); [done|].
    assert (Ht : trace (world (ContainerFactory.phases classes env imports
                  (default true f1) (default true f2) (default true f3)
                  (Container_new SINGLETON w)).1) = trace w ++ delta)
      by exact E.
    destruct (ContainerFactory.phases _ _ _ _ _ _ _) as [s [[]|e|]];
      simpl in *; rewrite Ht, since_app; intros Hin;
      rewrite Forall_forall in F; by apply (F _ Hin).
  - intros w' c Hc.
    apply call_returns in Hc as (s1 & Hp & -> & ->).
    destruct Hp as [_ _ _ _ _ P6 _ _ P9 _]. simpl in *.
    destruct (singletons (box s1) !! NameKey "FastAPIFactory") as [i|] eqn:Hi;
      [exfalso|done].
    destruct (P9 (NameKey "FastAPIFactory")) as [[? H]|[b H]]; [by eexists|..].
    + by rewrite lookup_empty in H.
    + destruct (P6 _ _ H) as [H'|[[cls [=]] _]].
      by rewrite lookup_empty in H'.
Qed.

(** ** What the returned registry holds *)

Lemma fresh_lifetimes w s k b :
  preserves classes (Container_new SINGLETON w) s →
  registry (box s) !! k = Some b → lifetime b = SINGLETON.
Proof.
  intros [_ _ _ _ _ P6 _ _ _ _] Hb. simpl in P6.
  destruct (P6 _ _ Hb) as [H|[_ H]]; [|done]. by rewrite lookup_empty in H.
Qed.

Lemma steady_classes w s cls :
  preserves classes (Container_new SINGLETON w) s →
  is_Some (registry (box s) !! TypeKey cls) → is_Some (classes !! cls).
Proof.
  intros [_ _ _ _ P5 _ _ _ _ _] Hb. unfold resolvable in P5. simpl in P5.
  assert (Hin : TypeKey cls
    ∈ dom (registry (box s)) ∪ (set_map TypeKey (dom classes) : gset ServiceKey)).
  { apply elem_of_union_l, elem_of_dom, Hb. }
  rewrite P5, dom_empty_L, (left_id_L ∅ (∪)) in Hin.
  apply elem_of_map in Hin as (cls' & [= <-] & Hd). by apply elem_of_dom.
Qed.

(** X5.  The registry of the container that comes back holds one name,
    ["FastAPIFactory"], and beside it only classes the container registered
    on its own; every binding is a SINGLETON, every cached instance belongs
    to a bound key, and the only registration the bootstrap made is the one
    of [Registry.register]. *)
Theorem returned_registry_shape f1 f2 f3 w w' c :
  __call__ f1 f2 f3 w = (w', Returns c) →
  (∀ n, is_Some (registry c !! NameKey n) → n = "FastAPIFactory")
  ∧ (∀ cls, is_Some (registry c !! TypeKey cls) → is_Some (classes !! cls))
  ∧ (∀ k b, registry c !! k = Some b → lifetime b = SINGLETON)
  ∧ (∀ k, is_Some (singletons c !! k) → is_Some (registry c !! k))
  ∧ (∀ k lt, ERegister k lt ∈ since (trace w) (trace w') →
             k = NameKey "FastAPIFactory" ∧ lt = SINGLETON).
Proof.
  intros Hcall. pose proof (call_since f1 f2 f3 w) as [rest P].
  rewrite Hcall in P. simpl in P.
  apply call_returns in Hcall as (s1 & Hp & -> & ->).
  split; [|split; [|split; [|split]]]; simpl.
  - intros n [b Hb].
    destruct (decide (n = "FastAPIFactory")) as [->|Hn]; [done|].
    rewrite lookup_insert_ne in Hb by congruence.
    destruct Hp as [_ _ _ _ _ P6 _ _ _ _]. simpl in P6.
    destruct (P6 _ _ Hb) as [H|[[cls [=]] _]]. by rewrite lookup_empty in H.
  - intros cls. rewrite lookup_insert_ne by done.
    apply (steady_classes w s1 cls Hp).
  - intros k b. rewrite lookup_insert. case_decide as Hd.
    + by intros [= <-].
    + by apply (fresh_lifetimes w s1 k b).
  - intros k Hk. destruct Hp as [_ _ _ _ _ _ _ _ P9 _]. simpl in P9.
    rewrite lookup_insert. case_decide as Hd; [by eexists|].
    destruct (P9 k Hk) as [[? H]|H]; [|done]. by rewrite lookup_empty in H.
  - intros k lt Hin.
    assert (Hs : ERegister k lt ∈ script (default true f1) (default true f2)
                   (default true f3)).
    { rewrite P. apply elem_of_app. left. by apply list_elem_of_filter. }
    unfold script, script_phase, script_register in Hs.
    destruct (default true f1), (default true f2), (default true f3);
      set_solver.
Qed.

(** ** Registering twice *)

(** X6.  [Registry.register] is idempotent: a second call leaves the
    container as the first left it.  And it does not disturb an instance
    that was resolved in between: after a second registration the name
    still resolves to the instance it had, straight from the cache. *)
Theorem register_again_keeps_instance s0 s1 i :
  box (Registry.register (Registry.register s0).1).1
  = box (Registry.register s0).1
  ∧ (Container_resolve classes (NameKey "FastAPIFactory")
       (Registry.register s0).1 = (s1, Returns i) →
     box (Registry.register s1).1 = box s1
     ∧ Container_resolve classes (NameKey "FastAPIFactory")
         (Registry.register s1).1
       = (log (EResolve 0 (NameKey "FastAPIFactory"))
            (Registry.register s1).1, Returns i)).
Proof.
  split.
  { simpl. unfold set_registry. simpl. by rewrite insert_insert_eq. }
  intros Hr.
  pose proof (Container_resolve_preserves classes (NameKey "FastAPIFactory")
                (Registry.register s0).1) as [_ _ _ P4 _ _ _ _ _ _].
  rewrite Hr in P4. simpl in P4.
  assert (Ha : registry (box s1) !! NameKey "FastAPIFactory"
               = Some (alias_of (TypeKey "FastAPIFactory"))).
  { eapply lookup_weaken; [|exact P4]. by rewrite lookup_insert_eq. }
  unfold Container_resolve in Hr.
  apply resolve_fuel_returns in Hr as (b & Hb & Hi & _).
  assert (b = alias_of (TypeKey "FastAPIFactory")) as -> by congruence.
  specialize (Hi eq_refl).
  assert (Hbox : box (Registry.register s1).1 = box s1).
  { simpl. unfold set_registry. rewrite insert_id by exact Ha.
    by destruct (box s1). }
  split; [done|].
  apply (resolve_fuel_cached classes _ 0 _ _
           (alias_of (TypeKey "FastAPIFactory")) i); by rewrite ?Hbox.
Qed.

(** ** Where a run of the bootstrap ends *)

Lemma ends_at_silent good ev cond e {A} (m : M A) :
  (∀ s, good s →
     good (m s).1
     ∧ ∃ delta, trace (world (m s).1) = trace (world s) ++ delta
                ∧ ev ∉ delta) →
  ends_at good ev cond e m.
Proof.
  intros H s Hs. destruct (H s Hs) as (Hg & delta & E & Hn).
  split; [done|]. exists delta. split; [done|].
  intros pre post -> _. exfalso. apply Hn. set_solver.
Qed.

Lemma ends_at_bind good ev cond e {A B} (m : M A) (f : A → M B) :
  ends_at good ev cond e m → (∀ a, ends_at good ev cond e (f a)) →
  ends_at good ev cond e (bind m f).
Proof.
  intros Hm Hf s Hs. unfold bind. destruct (Hm s Hs) as (Hg & l1 & E1 & H1).
  destruct (m s) as [s1 [a|e0|]]; simpl in *.
  - destruct (Hf a s1 Hg) as (Hg2 & l2 & E2 & H2). split; [done|].
    exists (l1 ++ l2). rewrite E2, E1, app_assoc. split; [done|].
    intros pre post Hsplit Hc.
    apply app_eq_split in Hsplit as [(p & -> & ->)|(p & -> & ->)].
    + by destruct (H1 pre p eq_refl Hc) as [_ ?].
    + apply (H2 p post eq_refl). by rewrite E1, <- app_assoc.
  - split; [done|]. exists l1. split; [done|]. intros pre post Hsplit Hc.
    by destruct (H1 pre post Hsplit Hc) as [-> [= ->]].
  - split; [done|]. exists l1. split; [done|]. intros pre post Hsplit Hc.
    by destruct (H1 pre post Hsplit Hc) as [-> [=]].
Qed.

Lemma ends_at_when good ev cond e (flag : bool) (m : M unit) :
  ends_at good ev cond e m →
  ends_at good ev cond e (ContainerFactory.when flag m).
Proof.
  destruct flag; [done|]. intros _. apply ends_at_silent. intros s Hs.
  split; [done|]. exists []. simpl. rewrite app_nil_r. split; [done|].
  apply not_elem_of_nil.
Qed.

Lemma ends_at_phases good ev cond e f1 f2 f3 :
  (∀ k m, ends_at good ev cond e
            (bind (Container_resolve classes k)
               (λ i, ContainerFactory.invoke env m i))) →
  ends_at good ev cond e (ContainerFactory._register classes imports) →
  ends_at good ev cond e (ContainerFactory.phases classes env imports f1 f2 f3).
Proof.
  intros Hp Hr. unfold ContainerFactory.phases.
  apply ends_at_bind; [apply ends_at_when, Hp|]. intros _.
  apply ends_at_bind; [apply ends_at_when, Hp|]. intros _.
  apply ends_at_bind; [apply ends_at_when, Hp|]. intros _. exact Hr.
Qed.

(** What a run that ends at an action of the script has done before. *)
Lemma prefix_cut {A} (l sc1 sc2 : list A) x :
  l `prefix_of` sc1 ++ x :: sc2 → x ∉ sc2 →
  (x ∈ l → last l = Some x) →
  ∀ y, y ∈ l → y ∈ sc1 ∨ y = x.
Proof.
  intros [k Hk] Hx Hlast y Hy. symmetry in Hk.
  apply app_eq_split in Hk as [(p & -> & ->)|(p & -> & _)].
  - destruct p as [|z p].
    + apply elem_of_app in Hy as [?|?%list_elem_of_singleton]; eauto.
    + exfalso. apply Hx.
      assert (Hl : last (sc1 ++ x :: z :: p) = Some x)
        by (apply Hlast; set_solver).
      rewrite last_app_cons, last_cons_cons in Hl.
      apply last_Some_elem_of in Hl. set_solver.
  - left. set_solver.
Qed.

Lemma ends_at_last delta x (Q : Prop) :
  toplevel x →
  (∀ pre post, delta = pre ++ x :: post → post = [] ∧ Q) →
  x ∈ filter toplevel delta → last (filter toplevel delta) = Some x.
Proof.
  intros Hx Hend [_ Hin]%list_elem_of_filter.
  apply list_elem_of_split in Hin as (p & q & ->).
  destruct (Hend p q eq_refl) as [-> _].
  rewrite filter_app, filter_cons_True by done. apply last_snoc.
Qed.

(** ** A collaborator class the container cannot build *)

Lemma unknown_unbound cls s :
  unknown classes cls s → registry (box s) !! TypeKey cls = None.
Proof.
  unfold unknown, resolvable. intros H. apply not_elem_of_dom. set_solver.
Qed.

Lemma ends_at_resolve_unknown cls k :
  classes !! cls = None →
  ends_at (unknown classes cls) (EResolve 0 (TypeKey cls)) (λ _, True)
    (UnregisteredServiceError (TypeKey cls)) (Container_resolve classes k).
Proof.
  intros Hc s Hs. split.
  { destruct (Container_resolve_preserves classes k s)
      as [_ _ _ _ P5 _ _ _ _ _]. unfold unknown. by rewrite P5. }
  destruct (decide (k = TypeKey cls)) as [->|Hne].
  - exists [EResolve 0 (TypeKey cls)]. unfold Container_resolve. simpl.
    unfold find_binding. rewrite (unknown_unbound cls s Hs), Hc. simpl.
    split; [done|]. intros pre post Hsplit _.
    destruct pre as [|? [|? ?]]; by simplify_eq/=.
  - destruct (Container_resolve_trace classes k s) as (rest & E & F).
    exists (EResolve 0 k :: rest). split; [done|].
    intros pre post Hsplit _. exfalso.
    assert (Hin : EResolve 0 (TypeKey cls) ∈ EResolve 0 k :: rest)
      by (rewrite Hsplit; set_solver).
    apply elem_of_cons in Hin as [[=]|Hin]; [congruence|].
    rewrite Forall_forall in F. specialize (F _ Hin). simpl in F. lia.
Qed.

Lemma ends_at_invoke good ev cond e m i :
  (∀ s s', box s' = box s → good s → good s') →
  ev ≠ ECall m → ev ≠ EReturn m →
  ends_at good ev cond e (ContainerFactory.invoke env m i).
Proof.
  intros Hg H1 H2. apply ends_at_silent. intros s Hs.
  unfold ContainerFactory.invoke.
  destruct (env m i (trace (world s))); simpl.
  - split; [by apply (Hg s)|]. exists [ECall m]. split; [done|]. set_solver.
  - split; [by apply (Hg s)|]. exists [ECall m; EReturn m].
    split; [by rewrite <- app_assoc|]. set_solver.
Qed.

Lemma unknown_box cls s s' :
  box s' = box s → unknown classes cls s → unknown classes cls s'.
Proof. unfold unknown. by intros ->. Qed.

Lemma ends_at_unknown cls f1 f2 f3 :
  classes !! cls = None →
  ends_at (unknown classes cls) (EResolve 0 (TypeKey cls)) (λ _, True)
    (UnregisteredServiceError (TypeKey cls))
    (ContainerFactory.phases classes env imports f1 f2 f3).
Proof.
  intros Hc. apply ends_at_phases.
  - intros k m. apply ends_at_bind; [by apply ends_at_resolve_unknown|].
    intros i. apply ends_at_invoke; [apply unknown_box|done..].
  - unfold ContainerFactory._register. apply ends_at_bind.
    { apply ends_at_silent. intros s Hs.
      unfold ContainerFactory.import_module.
      destruct (imports _ _); simpl; (split; [done|]);
        exists [EImport "ioc.registries"]; (split; [done|]); set_solver. }
    intros _. apply ends_at_bind; [by apply ends_at_resolve_unknown|].
    intros i. apply ends_at_silent. intros s Hs. split.
    + unfold unknown, resolvable in *. simpl. rewrite dom_insert_L.
      set_solver.
    + exists [ECall Registry_register;
              ERegister (NameKey "FastAPIFactory") SINGLETON;
              EReturn Registry_register].
      split; [simpl; by rewrite <- !app_assoc|]. set_solver.
Qed.

(** X7.  When the container cannot build the class of the collaborator of
    a phase that is on (the configurators and the instrumentor come from
    packages that are not among the sources), no call returns a container:
    the method of that collaborator is never called, [ioc.registries] is
    never imported and nothing is registered; and a call that gets as far
    as resolving the class ends there, with [UnregisteredServiceError] for
    it. *)
Theorem missing_collaborator_class f1 f2 f3 w cls m :
  classes !! cls = None →
  (cls = "DjangoConfigurator"
   ∧ m = DjangoConfigurator_configure "configs.django"
   ∧ default true f1 = true)
  ∨ (cls = "LoggingConfigurator"
     ∧ m = LoggingConfigurator_configure ∧ default true f2 = true)
  ∨ (cls = "OpenTelemetryInstrumentor"
     ∧ m = OpenTelemetryInstrumentor_instrument_libraries
     ∧ default true f3 = true) →
  (∀ c, (__call__ f1 f2 f3 w).2 ≠ Returns c)
  ∧ (∀ ev, ev ∈ since (trace w) (trace (__call__ f1 f2 f3 w).1) →
           ev ≠ ECall m ∧ ev ≠ EImport "ioc.registries"
           ∧ ∀ k lt, ev ≠ ERegister k lt)
  ∧ ∀ pre post,
      since (trace w) (trace (__call__ f1 f2 f3 w).1)
      = pre ++ EResolve 0 (TypeKey cls) :: post →
      post = []
      ∧ (__call__ f1 f2 f3 w).2
        = Raises (UnregisteredServiceError (TypeKey cls)).
Proof.
  intros Hc Hph.
  destruct (call_follows classes env imports f1 f2 f3 w)
    as (delta & E & P & R).
  assert (Hend : ∀ pre post,
    delta = pre ++ EResolve 0 (TypeKey cls) :: post →
    post = []
    ∧ (__call__ f1 f2 f3 w).2 = Raises (UnregisteredServiceError (TypeKey cls))).
  { intros pre post Hsplit. revert E. unfold ContainerFactory.__call__.
    destruct (ends_at_unknown cls (default true f1) (default true f2)
      (default true f3) Hc (Container_new SINGLETON w))
      as (_ & l & El & Hl).
    { unfold unknown, resolvable. simpl. rewrite dom_empty_L.
      intros [Hin|Hin]%elem_of_union; [set_solver|].
      apply elem_of_map in Hin as (cls' & [= <-] & Hd).
      apply elem_of_dom in Hd as [? ?]. congruence. }
    assert (Et : trace (world (ContainerFactory.phases classes env imports
                  (default true f1) (default true f2) (default true f3)
                  (Container_new SINGLETON w)).1) = trace w ++ l)
      by exact El.
    destruct (ContainerFactory.phases _ _ _ _ _ _ _) as [s o].
    simpl in *. intros E.
    assert (delta = l) as ->.
    { destruct o as [[]|?|]; simpl in E; rewrite Et in E;
        by apply app_inv_head in E. }
    destruct (Hl pre post Hsplit I) as [-> Ho]. split; [done|].
    destruct o as [[]|?|]; simpl in *; congruence. }
  rewrite E, since_app.
  assert (Hlast : EResolve 0 (TypeKey cls) ∈ filter toplevel delta →
                  last (filter toplevel delta)
                  = Some (EResolve 0 (TypeKey cls))).
  { eapply ends_at_last; [|exact Hend]. done. }
  assert (Hev : ∀ ev, ev ∈ delta →
    ev ≠ ECall m ∧ ev ≠ EImport "ioc.registries"
    ∧ ∀ k lt, ev ≠ ERegister k lt).
  { intros ev Hin.
    assert (Hcut : toplevel ev → ∃ sc1 : list Event,
      (ev ∈ sc1 ∨ ev = EResolve 0 (TypeKey cls))
      ∧ (ECall m ∉ sc1) ∧ (EImport "ioc.registries" ∉ sc1)
      ∧ ∀ k lt, ERegister k lt ∉ sc1).
    { intros Ht.
      assert (Hf : ev ∈ filter toplevel delta)
        by (by apply list_elem_of_filter).
      unfold script, script_phase, script_register in P.
      destruct Hph as [(-> & -> & Hfl)|[(-> & -> & Hfl)|(-> & -> & Hfl)]];
        rewrite Hfl in P.
      - exists []. split; [|set_solver].
        eapply (prefix_cut _ [] _ _ P); [|exact Hlast|exact Hf].
        destruct (default true f2), (default true f3); set_solver.
      - exists (if default true f1
                then script_phase (TypeKey "DjangoConfigurator")
                       (DjangoConfigurator_configure "configs.django")
                else []).
        split; [|unfold script_phase; destruct (default true f1); set_solver].
        eapply (prefix_cut _ _ _ _ P); [|exact Hlast|exact Hf].
        destruct (default true f3); set_solver.
      - rewrite app_assoc in P.
        exists ((if default true f1
                 then script_phase (TypeKey "DjangoConfigurator")
                        (DjangoConfigurator_configure "configs.django")
                 else [])
                ++ (if default true f2
                    then script_phase (TypeKey "LoggingConfigurator")
                           LoggingConfigurator_configure
                    else [])).
        split; [|unfold script_phase;
                 destruct (default true f1), (default true f2); set_solver].
        eapply (prefix_cut _ _ _ _ P); [|exact Hlast|exact Hf].
        set_solver. }
    split; [|split].
    - intros ->. destruct (Hcut I) as (sc1 & [?|[=]] & ? & _). done.
    - intros ->. destruct (Hcut I) as (sc1 & [?|[=]] & _ & ? & _). done.
    - intros k lt ->. destruct (Hcut I) as (sc1 & [?|[=]] & _ & _ & H).
      by apply (H k lt). }
  split; [|split; [exact Hev | exact Hend]].
  intros c Hret. specialize (R c Hret).
  assert (Hin : ECall m ∈ delta).
  { assert (Hs : ECall m ∈ filter toplevel delta).
    { rewrite R. unfold script, script_phase.
      destruct Hph as [(_ & -> & ->)|[(_ & -> & ->)|(_ & -> & ->)]];
        set_solver. }
    by apply list_elem_of_filter in Hs as [_ ?]. }
  by destruct (Hev _ Hin) as [? _].
Qed.

(** ** An import that fails *)

Lemma ends_at_import e f1 f2 f3 :
  ends_at (λ _, True) (EImport "ioc.registries")
    (λ tr, imports "ioc.registries" tr = Some e) e
    (ContainerFactory.phases classes env imports f1 f2 f3).
Proof.
  apply ends_at_phases.
  - intros k m. apply ends_at_bind.
    + apply ends_at_silent. intros s _. split; [done|].
      destruct (Container_resolve_trace classes k s) as (rest & E & F).
      exists (EResolve 0 k :: rest). split; [done|].
      intros [[=]|Hin]%elem_of_cons.
      rewrite Forall_forall in F. by specialize (F _ Hin).
    + intros i. by apply ends_at_invoke.
  - unfold ContainerFactory._register. apply ends_at_bind.
    { intros s _. split; [done|]. exists [EImport "ioc.registries"].
      unfold ContainerFactory.import_module. split.
      - by destruct (imports _ _).
      - intros pre post Hsplit Hc.
        destruct pre as [|? [|? ?]]; simplify_eq/=.
        rewrite app_nil_r in Hc. by rewrite Hc. }
    intros _. apply ends_at_bind.
    + apply ends_at_silent. intros s _. split; [done|].
      destruct (Container_resolve_trace classes (TypeKey "Registry") s)
        as (rest & E & F).
      exists (EResolve 0 (TypeKey "Registry") :: rest). split; [done|].
      intros [[=]|Hin]%elem_of_cons.
      rewrite Forall_forall in F. by specialize (F _ Hin).
    + intros i. apply ends_at_silent. intros s _. split; [done|].
      exists [ECall Registry_register;
              ERegister (NameKey "FastAPIFactory") SINGLETON;
              EReturn Registry_register].
      split; [simpl; by rewrite <- !app_assoc|]. set_solver.
Qed.

(** X10.  When the import of [ioc.registries] raises, the call ends there
    with the exception of the import: nothing follows the import, and
    before it [Registry] was not resolved, its [register] was not called
    and nothing was registered. *)
Theorem failed_import_ends_bootstrap f1 f2 f3 w pre post e :
  trace (__call__ f1 f2 f3 w).1
  = trace w ++ pre ++ EImport "ioc.registries" :: post →
  imports "ioc.registries" (trace w ++ pre) = Some e →
  post = []
  ∧ (__call__ f1 f2 f3 w).2 = Raises e
  ∧ ∀ ev, ev ∈ pre →
      ev ≠ EResolve 0 (TypeKey "Registry") ∧ ev ≠ ECall Registry_register
      ∧ ∀ k lt, ev ≠ ERegister k lt.
Proof.
  intros Htr Himp.
  destruct (call_follows classes env imports f1 f2 f3 w)
    as (delta & E & P & _).
  rewrite E in Htr. apply app_inv_head in Htr. subst delta.
  assert (Hend : post = [] ∧ (__call__ f1 f2 f3 w).2 = Raises e).
  { revert E. unfold ContainerFactory.__call__.
    destruct (ends_at_import e (default true f1) (default true f2)
      (default true f3) (Container_new SINGLETON w) I) as (_ & l & El & Hl).
    assert (Et : trace (world (ContainerFactory.phases classes env imports
                  (default true f1) (default true f2) (default true f3)
                  (Container_new SINGLETON w)).1) = trace w ++ l)
      by exact El.
    destruct (ContainerFactory.phases _ _ _ _ _ _ _) as [s o].
    simpl in *. intros E.
    assert (l = pre ++ EImport "ioc.registries" :: post) as ->.
    { destruct o as [[]|?|]; simpl in E; rewrite Et in E;
        by apply app_inv_head in E. }
    destruct (Hl pre post eq_refl Himp) as [-> Ho]. split; [done|].
    destruct o as [[]|?|]; simpl in *; congruence. }
  destruct Hend as [-> Hr]. split; [done|]. split; [done|].
  intros ev Hin.
  assert (Hcut : toplevel ev →
    ev ∈ (if default true f1
          then script_phase (TypeKey "DjangoConfigurator")
                 (DjangoConfigurator_configure "configs.django")
          else [])
         ++ (if default true f2
             then script_phase (TypeKey "LoggingConfigurator")
                    LoggingConfigurator_configure
             else [])
         ++ (if default true f3
             then script_phase (TypeKey "OpenTelemetryInstrumentor")
                    OpenTelemetryInstrumentor_instrument_libraries
             else [])).
  { intros Ht. unfold script in P. rewrite !app_assoc in P.
    rewrite filter_app, filter_cons_True in P by done. simpl in P.
    destruct P as [k Hk]. symmetry in Hk. unfold script_register in Hk.
    assert (Hf : ev ∈ filter toplevel pre) by (by apply list_elem_of_filter).
    rewrite <- app_assoc in Hk. simpl in Hk.
    apply app_eq_split in Hk as [(p & _ & Hq)|(p & Hp & _)].
    - exfalso.
      assert (Hbad : EImport "ioc.registries"
                     ∈ [EResolve 0 (TypeKey "Registry");
                        ECall Registry_register;
                        ERegister (NameKey "FastAPIFactory") SINGLETON;
                        EReturn Registry_register])
        by (rewrite Hq; set_solver).
      set_solver.
    - rewrite <- !app_assoc in Hp. rewrite Hp. set_solver. }
  unfold script_phase in Hcut.
  split; [|split].
  - intros ->. specialize (Hcut I).
    destruct (default true f1), (default true f2), (default true f3);
      set_solver.
  - intros ->. specialize (Hcut I).
    destruct (default true f1), (default true f2), (default true f3);
      set_solver.
  - intros k lt ->. specialize (Hcut I).
    destruct (default true f1), (default true f2), (default true f3);
      set_solver.
Qed.

(** ** When the bootstrap returns *)

Lemma find_binding_autoregistered k c b c1 :
  find_binding classes k c = Some (b, c1) →
  autoregistered classes c → autoregistered classes c1.
Proof.
  unfold find_binding. intros Hf HA.
  destruct (registry c !! k) as [b0|]; [by injection Hf as <- <-|].
  destruct k as [cls|]; [|done].
  destruct (classes !! cls) as [f|] eqn:Hc; [|done].
  injection Hf as <- <-. intros cls' b'. simpl.
  rewrite lookup_insert. case_decide as Hd; [|apply HA].
  injection Hd as <-. by intros [= <-].
Qed.

Lemma resolve_fuel_autoregistered n :
  ∀ d k s,
    autoregistered classes (box s) →
    autoregistered classes (box (resolve_fuel classes n d k s).1).
Proof.
  induction n as [|n IH]; intros d k s HA; simpl; [done|].
  destruct (find_binding classes k (box s)) as [[b c1]|] eqn:Hf; [|done].
  pose proof (find_binding_autoregistered _ _ _ _ Hf HA) as H1.
  destruct (cached b k c1) as [i|]; [done|].
  case_decide as Hin; [done|].
  pose proof (exec_invariant _ (autoregistered classes) (IH (S d)) (factory b)
    (log (EFactory k) (with_box (enter k c1) (log (EResolve d k) s))) H1)
    as H3.
  destruct (exec _ _ _) as [s3 o]. simpl in H3.
  destruct o as [i| |]; simpl; try done.
  unfold store. by destruct (lifetime b).
Qed.

(** A class built by a plain constructor call resolves, outside any
    construction. *)
Lemma resolve_plain cls s :
  plain classes cls →
  autoregistered classes (box s) → in_progress (box s) = ∅ →
  ∃ i, (Container_resolve classes (TypeKey cls) s).2 = Returns i.
Proof.
  intros [c0 Hc] HA Hip. unfold Container_resolve. simpl.
  unfold find_binding.
  destruct (registry (box s) !! TypeKey cls) as [[f l]|] eqn:Hb.
  - pose proof (HA _ _ Hb) as Hf. simpl in Hf.
    assert (f = FConstruct c0) as -> by congruence.
    destruct (cached _ _ _) as [i|]; [by eexists|].
    rewrite decide_False by (rewrite Hip; set_solver). simpl. by eexists.
  - rewrite Hc. destruct (cached _ _ _) as [i|]; [by eexists|].
    rewrite decide_False by (simpl; rewrite Hip; set_solver). simpl.
    by eexists.
Qed.

Lemma when_phase_returns (flag : bool) cls m s :
  (∀ m i tr, env m i tr = None) →
  (flag = true → plain classes cls) →
  autoregistered classes (box s) → in_progress (box s) = ∅ →
  ∃ s' delta,
    ContainerFactory.when flag
      (bind (Container_resolve classes (TypeKey cls))
         (λ i, ContainerFactory.invoke env m i)) s = (s', Returns tt)
    ∧ autoregistered classes (box s') ∧ in_progress (box s') = ∅
    ∧ trace (world s') = trace (world s) ++ delta
    ∧ (flag = true → EReturn m ∈ delta).
Proof.
  intros Henv Hpl HA Hip. destruct flag; simpl.
  2: { exists s, []. rewrite app_nil_r. done. }
  destruct (resolve_plain cls s (Hpl eq_refl) HA Hip) as [i Hi].
  pose proof (resolve_fuel_autoregistered
                (S (size (resolvable classes (box s)))) 0 (TypeKey cls) s HA)
    as HA1.
  pose proof (Container_resolve_preserves classes (TypeKey cls) s)
    as [_ _ P3 _ _ _ _ _ _ [l Hl]].
  fold (Container_resolve classes (TypeKey cls) s) in HA1.
  unfold bind. destruct (Container_resolve classes (TypeKey cls) s)
    as [s1 o]. simpl in *. subst o.
  unfold ContainerFactory.invoke. rewrite Henv.
  eexists _, (l ++ [ECall m; EReturn m]). split; [done|].
  simpl. split; [done|]. split; [by rewrite P3|].
  split; [by rewrite Hl, <- !app_assoc|]. intros _. set_solver.
Qed.

(** X8.  The bootstrap returns a container whenever no collaborator method
    raises, the container builds [Registry] and the collaborators of the
    phases that are on by a plain constructor call, and the import of
    [ioc.registries] succeeds at the point where the call makes it: after
    [DjangoConfigurator.configure] has returned when the Django phase is
    on, and without that when it is off. *)
Theorem bootstrap_returns f1 f2 f3 w :
  (∀ m i tr, env m i tr = None) →
  (∀ pre,
     (default true f1 = true →
      EReturn (DjangoConfigurator_configure "configs.django") ∈ pre) →
     imports "ioc.registries" (trace w ++ pre) = None) →
  (default true f1 = true → plain classes "DjangoConfigurator") →
  (default true f2 = true → plain classes "LoggingConfigurator") →
  (default true f3 = true → plain classes "OpenTelemetryInstrumentor") →
  plain classes "Registry" →
  ∃ w' c, __call__ f1 f2 f3 w = (w', Returns c).
Proof.
  intros Henv Himp H1 H2 H3 H4. unfold ContainerFactory.__call__.
  assert (HA0 : autoregistered classes (box (Container_new SINGLETON w))).
  { intros cls b Hb. simpl in Hb. by rewrite lookup_empty in Hb. }
  destruct (when_phase_returns (default true f1) "DjangoConfigurator"
    (DjangoConfigurator_configure "configs.django")
    (Container_new SINGLETON w) Henv H1 HA0 eq_refl)
    as (s1 & d1 & E1 & HA1 & I1 & T1 & R1).
  destruct (when_phase_returns (default true f2) "LoggingConfigurator"
    LoggingConfigurator_configure s1 Henv H2 HA1 I1)
    as (s2 & d2 & E2 & HA2 & I2 & T2 & _).
  destruct (when_phase_returns (default true f3) "OpenTelemetryInstrumentor"
    OpenTelemetryInstrumentor_instrument_libraries s2 Henv H3 HA2 I2)
    as (s3 & d3 & E3 & HA3 & I3 & T3 & _).
  fold (ContainerFactory._configure_django classes env) in E1.
  fold (ContainerFactory._configure_logging classes env) in E2.
  fold (ContainerFactory._instrument_libraries classes env) in E3.
  unfold ContainerFactory.phases.
  unfold bind at 1. rewrite E1.
  unfold bind at 1. rewrite E2.
  unfold bind at 1. rewrite E3.
  unfold ContainerFactory._register, ContainerFactory.import_module, bind, emit.
  assert (Hi3 : imports "ioc.registries" (trace (world s3)) = None).
  { rewrite T3, T2, T1. simpl. rewrite <- !app_assoc. apply Himp.
    intros Hf. specialize (R1 Hf). set_solver. }
  rewrite Hi3.
  destruct (resolve_plain "Registry" (log (EImport "ioc.registries") s3)
    H4 HA3 I3) as [i Hi].
  destruct (Container_resolve classes (TypeKey "Registry") _) as [s4 o].
  simpl in Hi. subst o. simpl. by eexists _, _.
Qed.

(** ** The name when the class cannot be built *)

(** X9.  The factory [Registry.register] binds passes on what resolving
    the class gives: when the container has no binding for the class
    [FastAPIFactory] and cannot build it, resolving the name raises
    [UnregisteredServiceError] for the class, not for the name; nothing is
    cached, no construction stays open and the registry is as the
    registration left it, so that a later call tries again. *)
Theorem alias_reports_missing_class s :
  registry (box s) !! TypeKey "FastAPIFactory" = None →
  classes !! "FastAPIFactory" = None →
  NameKey "FastAPIFactory" ∉ in_progress (box s) →
  singletons (box s) !! NameKey "FastAPIFactory" = None →
  (Container_resolve classes (NameKey "FastAPIFactory")
     (Registry.register s).1).2
  = Raises (UnregisteredServiceError (TypeKey "FastAPIFactory"))
  ∧ singletons
      (box (Container_resolve classes (NameKey "FastAPIFactory")
              (Registry.register s).1).1) = singletons (box s)
  ∧ in_progress
      (box (Container_resolve classes (NameKey "FastAPIFactory")
              (Registry.register s).1).1) = in_progress (box s)
  ∧ registry
      (box (Container_resolve classes (NameKey "FastAPIFactory")
              (Registry.register s).1).1)
    = registry (box (Registry.register s).1).
Proof.
  intros Ht Hc Hip Hs. unfold Container_resolve.
  assert (Hsz : ∃ n, size (resolvable classes (box (Registry.register s).1))
                     = S n).
  { destruct (size (resolvable classes (box (Registry.register s).1)))
      as [|n] eqn:Hn; [|by exists n].
    apply size_empty_inv in Hn.
    assert (NameKey "FastAPIFactory"
            ∈ resolvable classes (box (Registry.register s).1)); [|set_solver].
    unfold resolvable. apply elem_of_union_l, elem_of_dom. simpl.
    rewrite lookup_insert_eq. by eexists. }
  destruct Hsz as [n ->]. simpl. unfold find_binding. simpl.
  rewrite lookup_insert_eq. unfold cached. simpl. rewrite Hs.
  rewrite decide_False by done. simpl.
  rewrite lookup_insert_ne by done. rewrite Ht, Hc. simpl.
  repeat split. set_solver.
Qed.

End Extras.

(** ** The further properties at work on concrete processes *)

Lemma collaborator_called_at_most_once_witness :
  LoggingConfigurator_configure = Registry_register
  ∨ (LoggingConfigurator_configure
     = DjangoConfigurator_configure "configs.django"
     ∧ default true (Some true) = true)
  ∨ (LoggingConfigurator_configure = LoggingConfigurator_configure
     ∧ default true (None : option bool) = true)
  ∨ (LoggingConfigurator_configure
     = OpenTelemetryInstrumentor_instrument_libraries
     ∧ default true (Some false) = true).
Proof.
  apply (proj2 (collaborator_called_at_most_once demo_classes quiet loaded
                  (Some true) None (Some false) boot
                  LoggingConfigurator_configure)).
  apply (bool_decide_unpack _). vm_compute. exact I.
Defined.

Lemma phases_run_in_source_order_witness :
  EReturn LoggingConfigurator_configure
  ∈ [EResolve 0 (TypeKey "LoggingConfigurator");
     EFactory (TypeKey "LoggingConfigurator");
     ECall LoggingConfigurator_configure;
     EReturn LoggingConfigurator_configure;
     EResolve 0 (TypeKey "OpenTelemetryInstrumentor");
     EFactory (TypeKey "OpenTelemetryInstrumentor");
     ECall OpenTelemetryInstrumentor_instrument_libraries;
     EReturn OpenTelemetryInstrumentor_instrument_libraries]
  ∧ EReturn OpenTelemetryInstrumentor_instrument_libraries
    ∈ [EResolve 0 (TypeKey "LoggingConfigurator");
       EFactory (TypeKey "LoggingConfigurator");
       ECall LoggingConfigurator_configure;
       EReturn LoggingConfigurator_configure;
       EResolve 0 (TypeKey "OpenTelemetryInstrumentor");
       EFactory (TypeKey "OpenTelemetryInstrumentor");
       ECall OpenTelemetryInstrumentor_instrument_libraries;
       EReturn OpenTelemetryInstrumentor_instrument_libraries].
Proof.
  destruct (phases_run_in_source_order demo_classes quiet loaded
              (Some false) None None boot
              [EResolve 0 (TypeKey "LoggingConfigurator");
               EFactory (TypeKey "LoggingConfigurator");
               ECall LoggingConfigurator_configure;
               EReturn LoggingConfigurator_configure;
               EResolve 0 (TypeKey "OpenTelemetryInstrumentor");
               EFactory (TypeKey "OpenTelemetryInstrumentor");
               ECall OpenTelemetryInstrumentor_instrument_libraries;
               EReturn OpenTelemetryInstrumentor_instrument_libraries]
              (EImport "ioc.registries")
              [EResolve 0 (TypeKey "Registry"); EFactory (TypeKey "Registry");
               ECall Registry_register;
               ERegister (NameKey "FastAPIFactory") SINGLETON;
               EReturn Registry_register])
    as (_ & H2 & H3); [vm_compute; reflexivity|].
  split.
  - apply H2; [reflexivity|]. apply (bool_decide_unpack _). vm_compute. exact I.
  - apply H3; [reflexivity|]. apply (bool_decide_unpack _). vm_compute. exact I.
Defined.

Lemma bootstrap_never_builds_fastapi_factory_witness :
  ∃ w' c,
    ContainerFactory.__call__ demo_classes quiet loaded None None None boot
    = (w', Returns c)
    ∧ singletons c !! NameKey "FastAPIFactory" = None.
Proof.
  destruct (ContainerFactory.__call__ demo_classes quiet loaded None None None boot)
    as [w' [c|e|]] eqn:Hc; [|vm_compute in Hc; discriminate Hc..].
  exists w', c. split; [reflexivity|].
  exact (proj2 (bootstrap_never_builds_fastapi_factory demo_classes quiet loaded
                  None None None boot) w' c Hc).
Defined.

Lemma returned_registry_shape_witness :
  ∃ w' c,
    ContainerFactory.__call__ demo_classes quiet loaded None (Some false) None boot
    = (w', Returns c)
    ∧ (∀ n, is_Some (registry c !! NameKey n) → n = "FastAPIFactory")
    ∧ (∀ k b, registry c !! k = Some b → lifetime b = SINGLETON).
Proof.
  destruct (ContainerFactory.__call__ demo_classes quiet loaded
              None (Some false) None boot)
    as [w' [c|e|]] eqn:Hc; [|vm_compute in Hc; discriminate Hc..].
  destruct (returned_registry_shape demo_classes quiet loaded
              None (Some false) None boot w' c Hc) as (H1 & _ & H3 & _).
  exists w', c. split; [reflexivity|]. split; [exact H1 | exact H3].
Defined.

Lemma register_again_keeps_instance_witness :
  let s1 := (Container_resolve demo_classes (NameKey "FastAPIFactory")
               (Registry.register (Container_new SINGLETON boot)).1).1 in
  let i := {| class_of := "FastAPIFactory"; addr := 1 |} in
  box (Registry.register s1).1 = box s1
  ∧ Container_resolve demo_classes (NameKey "FastAPIFactory")
      (Registry.register s1).1
    = (log (EResolve 0 (NameKey "FastAPIFactory")) (Registry.register s1).1,
       Returns i).
Proof.
  apply (proj2 (register_again_keeps_instance demo_classes
                  (Container_new SINGLETON boot) _ _)).
  vm_compute. reflexivity.
Defined.

Lemma missing_collaborator_class_witness :
  @nil Event = []
  ∧ (ContainerFactory.__call__ no_logging quiet loaded None None None boot).2
    = Raises (UnregisteredServiceError (TypeKey "LoggingConfigurator")).
Proof.
  apply (proj2 (proj2 (missing_collaborator_class no_logging quiet loaded
                         None None None boot "LoggingConfigurator"
                         LoggingConfigurator_configure
                         ltac:(vm_compute; reflexivity)
                         ltac:(right; left; repeat split)))
           [EResolve 0 (TypeKey "DjangoConfigurator");
            EFactory (TypeKey "DjangoConfigurator");
            ECall (DjangoConfigurator_configure "configs.django");
            EReturn (DjangoConfigurator_configure "configs.django")]
           []).
  vm_compute. reflexivity.
Defined.

(** Without [LoggingConfigurator] the default bootstrap stops in its
    second phase. *)
Example missing_logging_class_default :
  ContainerFactory.__call__ no_logging quiet loaded None None None boot
  = ({| trace :=
          [EResolve 0 (TypeKey "DjangoConfigurator");
           EFactory (TypeKey "DjangoConfigurator");
           ECall (DjangoConfigurator_configure "configs.django");
           EReturn (DjangoConfigurator_configure "configs.django");
           EResolve 0 (TypeKey "LoggingConfigurator")];
        next_addr := 2 |},
     Raises (UnregisteredServiceError (TypeKey "LoggingConfigurator"))).
Proof. vm_compute. reflexivity. Qed.

Lemma failed_import_ends_bootstrap_witness :
  @nil Event = []
  ∧ (ContainerFactory.__call__ demo_classes quiet needs_django
       (Some false) None None boot).2
    = Raises (ExternalError "AppRegistryNotReady").
Proof.
  destruct (failed_import_ends_bootstrap demo_classes quiet needs_django
              (Some false) None None boot
              [EResolve 0 (TypeKey "LoggingConfigurator");
               EFactory (TypeKey "LoggingConfigurator");
               ECall LoggingConfigurator_configure;
               EReturn LoggingConfigurator_configure;
               EResolve 0 (TypeKey "OpenTelemetryInstrumentor");
               EFactory (TypeKey "OpenTelemetryInstrumentor");
               ECall OpenTelemetryInstrumentor_instrument_libraries;
               EReturn OpenTelemetryInstrumentor_instrument_libraries]
              [] (ExternalError "AppRegistryNotReady"))
    as (H1 & H2 & _).
  - vm_compute. reflexivity.
  - vm_compute. reflexivity.
  - split; [exact H1 | exact H2].
Defined.

(** The hazard the comments of [container.py] warn of: with modules that
    need Django, the bootstrap called with [configure_django=False] fails
    at the import and registers nothing, while the default call gets
    through. *)
Example import_needs_django :
  ContainerFactory.__call__ demo_classes quiet needs_django
    (Some false) (Some false) (Some false) boot
  = ({| trace := [EImport "ioc.registries"]; next_addr := 1 |},
     Raises (ExternalError "AppRegistryNotReady"))
  ∧ ∃ w' c,
      ContainerFactory.__call__ demo_classes quiet needs_django
        None (Some false) (Some false) boot = (w', Returns c)
      ∧ is_Some (registry c !! NameKey "FastAPIFactory").
Proof.
  split; [vm_compute; reflexivity|].
  eexists _, _. split; [vm_compute; reflexivity|]. vm_compute. by eexists.
Qed.

Lemma bootstrap_returns_witness :
  ∃ w' c,
    ContainerFactory.__call__ demo_classes quiet needs_django
      None (Some false) None boot
    = (w', Returns c).
Proof.
  apply (bootstrap_returns demo_classes quiet needs_django
           None (Some false) None boot).
  - intros m i tr. reflexivity.
  - intros pre H. unfold needs_django.
    rewrite bool_decide_eq_true_2; [reflexivity|].
    simpl. apply H. reflexivity.
  - intros _. exists "DjangoConfigurator". vm_compute. reflexivity.
  - intros H. discriminate H.
  - intros _. exists "OpenTelemetryInstrumentor". vm_compute. reflexivity.
  - exists "Registry". vm_compute. reflexivity.
Defined.

Lemma alias_reports_missing_class_witness :
  (Container_resolve ∅ (NameKey "FastAPIFactory")
     (Registry.register (Container_new SINGLETON boot)).1).2
  = Raises (UnregisteredServiceError (TypeKey "FastAPIFactory")).
Proof.
  apply (alias_reports_missing_class ∅ (Container_new SINGLETON boot)).
  - vm_compute. reflexivity.
  - vm_compute. reflexivity.
  - apply (bool_decide_unpack _). vm_compute. exact I.
  - vm_compute. reflexivity.
Defined.
